(** * Lead generation pipeline (ai_lead_generation_agent_ollama.py)

    A shallow embedding of the lead-extraction pipeline: candidate search
    ([search_for_urls]), per-page extraction with fallback synthesis
    ([extract_user_info_from_urls], [create_fallback_data]) and the
    normalizer ([format_user_info_to_flattened_json]).

    Python values are dynamically typed, so the embedding works over one type
    [pyval] of JSON-like values; an operation that Python would abort with an
    exception returns [Raise e].  External collaborators (the HTTP search
    endpoint and the Firecrawl client) are parameters of the functions that
    call them.  The Streamlit calls ([st.write], [st.error]) only narrate
    progress; they are taken not to raise and are left out. *)

From Stdlib Require Import String Ascii List ZArith Lia Bool PrimFloat.
Import ListNotations.
Local Open Scope list_scope.
Local Open Scope string_scope.

(** ** Python values, exceptions and the operations the program uses *)

Module Py.

(** A Python [str] is modelled as a [string], one [ascii] per character;
    a [dict] with string keys as an association list in insertion order,
    read through [dict_get] (first binding of the key). *)
#[warnings="-register-all"]
Inductive pyval : Type :=
| VNone
| VBool (b : bool)
| VInt (n : Z)
| VFloat (x : float)
| VStr (s : string)
| VList (l : list pyval)
| VDict (d : list (string * pyval)).

Definition pydict : Type := list (string * pyval).

(** Instances of [Exception] the program can meet.  [ServiceError] stands for
    any exception raised inside an external call. *)
Inductive pyexn : Type :=
| AttributeError
| KeyError (key : string)
| TypeError
| ValueError
| JSONDecodeError
| ServiceError (msg : string).

Inductive result (A : Type) : Type :=
| Ok (a : A)
| Raise (e : pyexn).

Arguments Ok {A} a.
Arguments Raise {A} e.

Definition bind {A B : Type} (c : result A) (k : A -> result B) : result B :=
  match c with
  | Ok a => k a
  | Raise e => Raise e
  end.

(** [try: c  except Exception: h] *)
Definition try_except {A : Type} (c : result A) (h : pyexn -> result A) : result A :=
  match c with
  | Ok a => Ok a
  | Raise e => h e
  end.

(** [bool(v)]: the truth value Python's [if v:] tests. *)
Definition truthy (v : pyval) : bool :=
  match v with
  | VNone => false
  | VBool b => b
  | VInt n => negb (Z.eqb n 0)
  | VFloat x => negb (PrimFloat.eqb x PrimFloat.zero)
  | VStr s => negb (String.eqb s "")
  | VList l => match l with [] => false | _ :: _ => true end
  | VDict d => match d with [] => false | _ :: _ => true end
  end.

Fixpoint dict_get (d : pydict) (k : string) : option pyval :=
  match d with
  | [] => None
  | (k', v) :: rest => if String.eqb k' k then Some v else dict_get rest k
  end.

(** [k in d] for a dict [d]. *)
Definition dict_contains (d : pydict) (k : string) : bool :=
  match dict_get d k with
  | Some _ => true
  | None => false
  end.

(** [v.get(k, default)]: only a dict has the method. *)
Definition get (v : pyval) (k : string) (default : pyval) : result pyval :=
  match v with
  | VDict d =>
      match dict_get d k with
      | Some x => Ok x
      | None => Ok default
      end
  | _ => Raise AttributeError
  end.

(** [v[k]] with a string key [k]. *)
Definition getitem (v : pyval) (k : string) : result pyval :=
  match v with
  | VDict d =>
      match dict_get d k with
      | Some x => Ok x
      | None => Raise (KeyError k)
      end
  | _ => Raise TypeError
  end.

Fixpoint chars (s : string) : list pyval :=
  match s with
  | EmptyString => []
  | String c rest => VStr (String c EmptyString) :: chars rest
  end.

(** The items a [for x in v] loop visits: the elements of a list, the
    characters of a string, the keys of a dict. *)
Definition iter (v : pyval) : result (list pyval) :=
  match v with
  | VList l => Ok l
  | VStr s => Ok (chars s)
  | VDict d => Ok (map (fun kv => VStr (fst kv)) d)
  | _ => Raise TypeError
  end.

Fixpoint all_str (items : list pyval) : result (list string) :=
  match items with
  | [] => Ok []
  | VStr s :: rest => bind (all_str rest) (fun ss => Ok (s :: ss))
  | _ :: _ => Raise TypeError
  end.

(** [sep.join(v)]: [v] must be iterable and yield only strings. *)
Definition join (sep : string) (v : pyval) : result string :=
  bind (iter v) (fun items =>
  bind (all_str items) (fun ss =>
  Ok (String.concat sep ss))).

(** [s.split(sep)] for a one-character separator. *)
Fixpoint split (sep : ascii) (s : string) : list string :=
  match s with
  | EmptyString => [EmptyString]
  | String c rest =>
      if Ascii.eqb c sep then EmptyString :: split sep rest
      else
        match split sep rest with
        | [] => [String c EmptyString]
        | seg :: segs => String c seg :: segs
        end
  end.

(** [s[:n]] *)
Definition slice_to (n : nat) (s : string) : string := substring 0 n s.

End Py.

Import Py.

Notation "x <- c ;; k" := (bind c (fun x => k))
  (at level 61, c at next level, right associativity).

(** ** CandidateSearcher: [search_for_urls] *)

(** The JSON body of the search request (the [payload] dict). *)
Record search_payload : Type := {
  query : string;
  limit : Z;
  lang : string;
  location : string;
  timeout : Z
}.

Record search_request : Type := {
  request_url : string;
  request_headers : list (string * string);
  request_json : search_payload
}.

(** What the program reads of a [requests.Response]: [status_code] and
    [json()], which raises when the body is not JSON ([None] here). *)
Record http_response : Type := {
  status_code : Z;
  json_body : option pyval
}.

Definition response_json (response : http_response) : result pyval :=
  match json_body response with
  | Some data => Ok data
  | None => Raise JSONDecodeError
  end.

(** The request built at lines 24-36. *)
Definition search_request_for
  (company_description firecrawl_api_key : string) (num_links : Z) : search_request :=
  let url := "https://api.firecrawl.dev/v1/search" in
  let headers :=
    [("Authorization", "Bearer " ++ firecrawl_api_key);
     ("Content-Type", "application/json")] in
  let query1 :=
    "quora websites where people are looking for " ++ company_description ++ " services" in
  let payload :=
    {| query := query1;
       limit := num_links;
       lang := "en";
       location := "United States";
       timeout := 60000 |} in
  {| request_url := url; request_headers := headers; request_json := payload |}.

(** [[result["url"] for result in results]]: stops at the first item that
    raises. *)
Fixpoint url_fields (results : list pyval) : result (list pyval) :=
  match results with
  | [] => Ok []
  | item :: rest =>
      u <- getitem item "url" ;;
      us <- url_fields rest ;;
      Ok (u :: us)
  end.

Section CandidateSearcher.

(** [requests.post]: one blocking request, which may itself raise. *)
Variable post : search_request -> result http_response.

Definition search_for_urls
  (company_description firecrawl_api_key : string) (num_links : Z) : result (list pyval) :=
  response <- post (search_request_for company_description firecrawl_api_key num_links) ;;
  if Z.eqb (status_code response) 200 then
    data <- response_json response ;;
    success <- get data "success" VNone ;;
    if truthy success then
      results <- get data "data" (VList []) ;;
      items <- iter results ;;
      url_fields items
    else Ok []
  else Ok [].

End CandidateSearcher.

(** ** Fallback synthesis: [create_fallback_data] *)

(** [url.split('/')[-1]]: [split] never returns the empty list, so the
    default of [last] is never used. *)
Definition trailing_segment (url : string) : string :=
  last (split "/"%char url) "".

(** ["User from " + url.split('/')[-1][:15]] *)
Definition fallback_username (url : string) : string :=
  "User from " ++ slice_to 15 (trailing_segment url).

Definition create_fallback_data (url : pyval) : result pyval :=
  match url with
  | VStr s =>
      Ok (VList
            [VDict
               [("username", VStr (fallback_username s));
                ("bio", VStr "Bio not available - extraction failed");
                ("post_type", VStr "question");
                ("timestamp", VStr "2024-01-01");
                ("upvotes", VInt 0);
                ("links", VList [])]])
  | _ => Raise AttributeError
  end.

(** ** PageExtractor: [extract_user_info_from_urls] *)

(** What the program observes of the object [firecrawl_app.extract] returns:
    - [attr_data]: [Some v] when [hasattr(response, 'data')], [v] being
      [response.data];
    - [attr_dict]: [Some d] when [hasattr(response, '__dict__')];
    - [as_mapping]: [Some r] when [hasattr(response, 'items')], [r] being the
      outcome of [dict(response)]. *)
Record response : Type := {
  attr_data : option pyval;
  attr_dict : option pydict;
  as_mapping : option (result pydict)
}.

(** The arguments of one [extract] call. *)
Record extract_call : Type := {
  call_urls : list pyval;
  call_prompt : string;
  call_schema : pyval
}.

(** A constructed client: its [extract] method, which may answer the n-th
    call differently from the others. *)
Definition firecrawl_app : Type := nat -> extract_call -> result response.

Definition extraction_prompt : string :=
  "Extract all user information including username, bio, post type (question/answer), timestamp, upvotes, and any links from Quora posts. Focus on identifying potential leads who are asking questions or providing answers related to the topic.".

(** [v if isinstance(v, dict) else {}] *)
Definition dict_or_empty (v : pyval) : pydict :=
  match v with
  | VDict d => d
  | _ => []
  end.

(** Lines 65-77: the payload recovered from the response object. *)
Definition extracted_data_of (r : response) : result pydict :=
  let otherwise :=
    match attr_dict r with
    | Some d => Ok d
    | None =>
        match as_mapping r with
        | Some converted => converted
        | None => Ok []
        end
    end in
  match attr_data r with
  | Some data =>
      if truthy data then
        match data with
        | VList (first :: _) => Ok (dict_or_empty first)
        | _ => Ok (dict_or_empty data)
        end
      else otherwise
  | None => otherwise
  end.

(** The dict appended to [user_info_list]. *)
Definition page_result (url user_info : pyval) : pyval :=
  VDict [("website_url", url); ("user_info", user_info)].

Definition fallback_page (url : pyval) : result pyval :=
  user_info <- create_fallback_data url ;;
  Ok (page_result url user_info).

Section PageExtractor.

(** [FirecrawlApp(api_key=...)]: constructing the client may raise. *)
Variable FirecrawlApp : string -> result firecrawl_app.

(** [QuoraPageSchema.model_json_schema()], generated by pydantic. *)
Variable page_schema : pyval.

(** The body of the inner [try] (lines 55-99) for one URL: the page it
    appends, or the exception it raises. *)
Definition extract_one (app : firecrawl_app) (calls : nat) (url : pyval) : result pyval :=
  r <- app calls {| call_urls := [url];
                    call_prompt := extraction_prompt;
                    call_schema := page_schema |} ;;
  extracted_data <- extracted_data_of r ;;
  if truthy (VDict extracted_data) && dict_contains extracted_data "interactions" then
    interactions <- getitem (VDict extracted_data) "interactions" ;;
    if truthy interactions then Ok (page_result url interactions)
    else fallback_page url
  else fallback_page url.

(** The [for] loop of lines 50-107.  [user_info_list] is the list the loop
    appends to; an exception that leaves the inner handler stops the loop and
    is returned with the list as it stands. *)
Fixpoint extract_loop (app : firecrawl_app) (calls : nat) (urls : list pyval)
  (user_info_list : list pyval) : list pyval * option pyexn :=
  match urls with
  | [] => (user_info_list, None)
  | url :: rest =>
      match try_except (extract_one app calls url) (fun url_error => fallback_page url) with
      | Ok page => extract_loop app (S calls) rest (user_info_list ++ [page])%list
      | Raise e => (user_info_list, Some e)
      end
  end.

(** The loop of the outer handler (lines 112-116). *)
Fixpoint fallback_all (urls : list pyval) (user_info_list : list pyval)
  : result (list pyval) :=
  match urls with
  | [] => Ok user_info_list
  | url :: rest =>
      page <- fallback_page url ;;
      fallback_all rest (user_info_list ++ [page])%list
  end.

Definition extract_user_info_from_urls
  (urls : list pyval) (firecrawl_api_key : string) : result (list pyval) :=
  app <- FirecrawlApp firecrawl_api_key ;;
  match extract_loop app 0 urls [] with
  | (user_info_list, None) => Ok user_info_list
  | (user_info_list, Some e) => fallback_all urls user_info_list
  end.

End PageExtractor.

(** ** Normalizer: [format_user_info_to_flattened_json] *)

(** The dict literal of lines 141-149. *)
Definition flattened_interaction (website_url interaction : pyval) : result pyval :=
  username <- get interaction "username" (VStr "") ;;
  bio <- get interaction "bio" (VStr "") ;;
  post_type <- get interaction "post_type" (VStr "") ;;
  timestamp <- get interaction "timestamp" (VStr "") ;;
  upvotes <- get interaction "upvotes" (VInt 0) ;;
  links <- get interaction "links" (VList []) ;;
  joined <- join ", " links ;;
  Ok (VDict
        [("Website URL", website_url);
         ("Username", username);
         ("Bio", bio);
         ("Post Type", post_type);
         ("Timestamp", timestamp);
         ("Upvotes", upvotes);
         ("Links", VStr joined)]).

(** The inner loop (lines 140-150), appending to [flattened_data]. *)
Fixpoint flatten_interactions (website_url : pyval) (user_info : list pyval)
  (flattened_data : list pyval) : result (list pyval) :=
  match user_info with
  | [] => Ok flattened_data
  | interaction :: rest =>
      row <- flattened_interaction website_url interaction ;;
      flatten_interactions website_url rest (flattened_data ++ [row])%list
  end.

(** The outer loop (lines 136-150). *)
Fixpoint flatten_pages (user_info_list : list pyval) (flattened_data : list pyval)
  : result (list pyval) :=
  match user_info_list with
  | [] => Ok flattened_data
  | info :: rest =>
      website_url <- getitem info "website_url" ;;
      user_info <- getitem info "user_info" ;;
      interactions <- iter user_info ;;
      flattened_data' <- flatten_interactions website_url interactions flattened_data ;;
      flatten_pages rest flattened_data'
  end.

Definition format_user_info_to_flattened_json (user_info_list : list pyval)
  : result (list pyval) :=
  flatten_pages user_info_list [].

(** ** QueryCondenser and the run: [create_prompt_transformation_agent], [main] *)

Definition double_quote : string := String "034"%char "".
Definition newline : string := String "010"%char "".

(** The instruction block of lines 157-173. *)
Definition transformation_instructions : string :=
  String.concat newline
    ["You are an expert at transforming detailed user queries into concise company descriptions.";
     "Your task is to extract the core business/product focus in 3-4 words.";
     "";
     "Examples:";
     "Input: " ++ double_quote ++ "Generate leads looking for AI-powered customer support chatbots for e-commerce stores." ++ double_quote;
     "Output: " ++ double_quote ++ "AI customer support chatbots for e commerce" ++ double_quote;
     "";
     "Input: " ++ double_quote ++ "Find people interested in voice cloning technology for creating audiobooks and podcasts" ++ double_quote;
     "Output: " ++ double_quote ++ "voice cloning technology" ++ double_quote;
     "";
     "Input: " ++ double_quote ++ "Looking for users who need automated video editing software with AI capabilities" ++ double_quote;
     "Output: " ++ double_quote ++ "AI video editing software" ++ double_quote;
     "";
     "Input: " ++ double_quote ++ "Need to find businesses interested in implementing machine learning solutions for fraud detection" ++ double_quote;
     "Output: " ++ double_quote ++ "ML fraud detection" ++ double_quote;
     "";
     "Always focus on the core product/service and keep it concise but clear."].

(** The arguments of [Agent(...)]. *)
Record agent_config : Type := {
  agent_model : string;
  agent_instructions : string;
  agent_markdown : bool
}.

(** A constructed agent: its [run] method, as the [content] of the response
    it returns for a message. *)
Definition agent : Type := string -> result string.

(** How a run of the "Generate Leads" branch of [main] ends: the message or
    the table it leaves on the page. *)
Inductive outcome : Type :=
| MissingInputs
| NoUrls
| NoLeadData (user_info_list : list pyval)
| Leads (urls : list pyval) (flattened_data : list pyval).

Section Run.

(** [Agent(...)] of the agno library. *)
Variable Agent : agent_config -> result agent.
Variable post : search_request -> result http_response.
Variable FirecrawlApp : string -> result firecrawl_app.
Variable page_schema : pyval.

Definition create_prompt_transformation_agent (model_name : string) : result agent :=
  Agent {| agent_model := model_name;
           agent_instructions := transformation_instructions;
           agent_markdown := true |}.

(** Lines 215-265 of [main], for the values of the widgets: the branch
    taken when "Generate Leads" is pressed.  [Leads] stands for the success
    branch, which hands [flattened_data] to the table and the CSV export. *)
Definition generate_leads
  (firecrawl_api_key ollama_model : string) (num_links : Z) (user_query : string)
  : result outcome :=
  if negb (truthy (VStr firecrawl_api_key) && truthy (VStr user_query)) then
    Ok MissingInputs
  else
    transform_agent <- create_prompt_transformation_agent ollama_model ;;
    company_description <-
      transform_agent
        ("Transform this query into a concise 3-4 word company description: "
         ++ user_query) ;;
    urls <- search_for_urls post company_description firecrawl_api_key num_links ;;
    if truthy (VList urls) then
      user_info_list <-
        extract_user_info_from_urls FirecrawlApp page_schema urls firecrawl_api_key ;;
      flattened_data <- format_user_info_to_flattened_json user_info_list ;;
      if truthy (VList flattened_data) then Ok (Leads urls flattened_data)
      else Ok (NoLeadData user_info_list)
    else Ok NoUrls.

End Run.

(** ** Vocabulary of the properties *)

(** [c in s] for a character [c]. *)
Fixpoint contains (c : ascii) (s : string) : bool :=
  match s with
  | EmptyString => false
  | String c' rest => Ascii.eqb c' c || contains c rest
  end.

(** The record [create_fallback_data] builds around a username. *)
Definition fallback_record (username : string) : pyval :=
  VDict
    [("username", VStr username);
     ("bio", VStr "Bio not available - extraction failed");
     ("post_type", VStr "question");
     ("timestamp", VStr "2024-01-01");
     ("upvotes", VInt 0);
     ("links", VList [])].

(** The body of a search response carries [success: true]. *)
Definition has_true_success (response : http_response) : bool :=
  match json_body response with
  | Some (VDict d) =>
      match dict_get d "success" with
      | Some (VBool true) => true
      | _ => false
      end
  | _ => false
  end.

(** A search response whose body is the JSON object [d]. *)
Definition json_response (status : Z) (d : pydict) : http_response :=
  {| status_code := status; json_body := Some (VDict d) |}.

(** The truth value of [d.get("success")]. *)
Definition success_flag (d : pydict) : bool :=
  truthy (match dict_get d "success" with Some v => v | None => VNone end).

(** [item] is a result object whose "url" entry is [u]. *)
Definition has_url (item u : pyval) : Prop :=
  exists fields, item = VDict fields /\ dict_get fields "url" = Some u.

(** The interactions a page dict holds, as the normalizer's loop visits
    them (none when the page has no iterable [user_info]). *)
Definition interactions_of (page : pyval) : list pyval :=
  match (user_info <- getitem page "user_info" ;; iter user_info) with
  | Ok interactions => interactions
  | Raise _ => []
  end.

(** The value a cell copies from the mapping [d]: the entry under [key] when
    there is one, [default] otherwise. *)
Definition field_or (d : pydict) (key : string) (default : pyval) : pyval :=
  match dict_get d key with
  | Some v => v
  | None => default
  end.

(** [row] is the row emitted for [interaction] on the page [website_url]. *)
Definition row_of (website_url interaction row : pyval) : Prop :=
  flattened_interaction website_url interaction = Ok row.

(** [rows] are the rows emitted for [page]: one per interaction, in the
    order of its interactions. *)
Definition rows_of_page (page : pyval) (rows : list pyval) : Prop :=
  exists website_url user_info,
    getitem page "website_url" = Ok website_url /\
    getitem page "user_info" = Ok user_info /\
    iter user_info = Ok (interactions_of page) /\
    Forall2 (row_of website_url) (interactions_of page) rows.

(** An interaction the normalizer can flatten: a mapping whose [links], when
    present, can be joined (an iterable of strings). *)
Definition flattenable (interaction : pyval) : bool :=
  match interaction with
  | VDict d =>
      match join ", " (match dict_get d "links" with Some v => v | None => VList [] end) with
      | Ok _ => true
      | Raise _ => false
      end
  | _ => false
  end.

(** A page dict the normalizer can flatten. *)
Definition page_flattenable (page : pyval) : bool :=
  match getitem page "website_url", getitem page "user_info" with
  | Ok _, Ok user_info =>
      match iter user_info with
      | Ok interactions => forallb flattenable interactions
      | Raise _ => false
      end
  | _, _ => false
  end.

(** Columns of a flattened row that copy a field of the interaction:
    column, field, default. *)
Definition copied_columns : list (string * (string * pyval)) :=
  [("Username", ("username", VStr ""));
   ("Bio", ("bio", VStr ""));
   ("Post Type", ("post_type", VStr ""));
   ("Timestamp", ("timestamp", VStr ""));
   ("Upvotes", ("upvotes", VInt 0))].

(** *** The unwrapping chain as the specification words it

    Three strategies tried in order, each yielding a mapping or nothing;
    the first that yields a usable (non-empty) mapping wins. *)

Definition usable (d : pydict) : bool := truthy (VDict d).

Definition mapping_of (v : pyval) : option pydict :=
  match v with
  | VDict d => Some d
  | _ => None
  end.

(** (a) the "data" field when present and non-empty, unwrapping the first
    element when it is a list. *)
Definition strategy_data (r : response) : option pydict :=
  match attr_data r with
  | Some data =>
      if truthy data then
        match data with
        | VList (first :: _) => mapping_of first
        | _ => mapping_of data
        end
      else None
  | None => None
  end.

(** (b) the whole response as an attribute bag. *)
Definition strategy_attribute_bag (r : response) : option pydict := attr_dict r.

(** (c) the response as a mapping. *)
Definition strategy_mapping (r : response) : option pydict :=
  match as_mapping r with
  | Some (Ok d) => Some d
  | _ => None
  end.

Fixpoint first_usable (candidates : list (option pydict)) : option pydict :=
  match candidates with
  | [] => None
  | Some d :: rest => if usable d then Some d else first_usable rest
  | None :: rest => first_usable rest
  end.

Definition spec_recover_payload (r : response) : option pydict :=
  first_usable [strategy_data r; strategy_attribute_bag r; strategy_mapping r].

(** The [extract] call issued for one URL. *)
Definition extract_call_for (page_schema url : pyval) : extract_call :=
  {| call_urls := [url]; call_prompt := extraction_prompt; call_schema := page_schema |}.

(** Strategy (a) applies: [hasattr(response, 'data') and response.data]. *)
Definition data_applicable (r : response) : bool :=
  match attr_data r with
  | Some data => truthy data
  | None => false
  end.

(** One level of "first element of a list". *)
Definition unwrap_first (data : pyval) : pyval :=
  match data with
  | VList (first :: _) => first
  | _ => data
  end.

(** *** Sample service answers *)

Definition sample_results : list pyval :=
  [VDict [("url", VStr "https://www.quora.com/What-is-the-best-AI-video-editor");
          ("title", VStr "What is the best AI video editor?")];
   VDict [("url", VStr "not a url")];
   VDict [("url", VStr "https://www.quora.com/What-is-the-best-AI-video-editor")]].

Definition sample_urls : list pyval :=
  [VStr "https://www.quora.com/What-is-the-best-AI-video-editor";
   VStr "not a url";
   VStr "https://www.quora.com/What-is-the-best-AI-video-editor"].

(** A success answer carrying [sample_results]. *)
Definition sample_success : http_response :=
  json_response 200 [("success", VBool true); ("data", VList sample_results)].

(** A 200 answer whose body is the JSON array [[]]. *)
Definition array_body_response : http_response :=
  {| status_code := 200; json_body := Some (VList []) |}.

(** A 200 answer whose body is not JSON (an HTML page, say). *)
Definition html_body_response : http_response :=
  {| status_code := 200; json_body := None |}.

(** A 200 answer that reports success as the number 1. *)
Definition numeric_success_response : http_response :=
  json_response 200 [("success", VInt 1); ("data", VList sample_results)].

Definition sample_interactions : pyval :=
  VList
    [VDict
       [("username", VStr "alice");
        ("bio", VStr "Freelance video editor");
        ("post_type", VStr "answer");
        ("timestamp", VStr "2023-05-01");
        ("upvotes", VInt 12);
        ("links", VList [VStr "https://example.com/a"; VStr "https://example.com/b"])];
     VDict [("username", VStr "bob"); ("post_type", VStr "question")]].

(** A response object exposing its payload as the attribute [data]. *)
Definition sample_response : response :=
  {| attr_data := Some (VDict [("interactions", sample_interactions)]);
     attr_dict :=
       Some [("success", VBool true);
             ("data", VDict [("interactions", sample_interactions)])];
     as_mapping := None |}.

(** A client whose first [extract] call times out and whose later calls
    return [sample_response]. *)
Definition sample_app : firecrawl_app :=
  fun calls _ =>
    match calls with
    | O => Raise (ServiceError "timeout")
    | S _ => Ok sample_response
    end.

(** A client whose answers carry the number 7 as "interactions". *)
Definition number_interactions_app : firecrawl_app :=
  fun _ _ =>
    Ok {| attr_data := Some (VDict [("interactions", VInt 7)]);
          attr_dict := Some [("data", VDict [("interactions", VInt 7)])];
          as_mapping := None |}.

(** A client constructor that rejects the API key. *)
Definition rejecting_client : string -> result firecrawl_app :=
  fun _ => Raise ValueError.

(** An instance of a [dict] subclass holding the payload: no [data]
    attribute, an empty attribute bag, and [items]. *)
Definition dict_subclass_response : response :=
  {| attr_data := None;
     attr_dict := Some [];
     as_mapping := Some (Ok [("interactions", sample_interactions)]) |}.

(** An object whose [data] is raw text and which carries the interactions as
    an attribute of its own. *)
Definition raw_data_response : response :=
  {| attr_data := Some (VStr "raw page text");
     attr_dict :=
       Some [("data", VStr "raw page text"); ("interactions", sample_interactions)];
     as_mapping := None |}.

(** Two pages as the extractor returns them: one with the fallback record,
    one with two extracted interactions. *)
Definition sample_pages : list pyval :=
  [page_result (VStr "https://quora.com/topic/AI-video-editing")
     (VList [fallback_record "User from AI-video-editin"]);
   page_result (VStr "https://quora.com/What-is-the-best-AI-video-editor")
     sample_interactions].

(** An interaction as a JSON extraction returns it when the bio is unknown:
    the field is present and null. *)
Definition null_bio_interaction : pydict :=
  [("username", VStr "carol"); ("bio", VNone); ("post_type", VStr "question")].

(** An interaction whose links are null. *)
Definition null_links_interaction : pydict :=
  [("username", VStr "dave"); ("links", VNone)].

(** *** Vocabulary of the further properties *)

(** The interactions one [extract] call yields, when it yields any: the
    "interactions" entry of the payload recovered from the response, provided
    the call returned, the payload could be recovered, and the entry is
    there and truthy. *)
Definition recovered_interactions (answer : result response) : option pyval :=
  match answer with
  | Ok r =>
      match extracted_data_of r with
      | Ok d =>
          match dict_get d "interactions" with
          | Some interactions => if truthy interactions then Some interactions else None
          | None => None
          end
      | Raise _ => None
      end
  | Raise _ => None
  end.

(** The page expected for the URL at position [i]. *)
Definition expected_page (app : firecrawl_app) (page_schema : pyval) (i : nat)
  (url : string) : pyval :=
  page_result (VStr url)
    (match recovered_interactions (app i (extract_call_for page_schema (VStr url))) with
     | Some interactions => interactions
     | None => VList [fallback_record (fallback_username url)]
     end).

Fixpoint expected_pages (app : firecrawl_app) (page_schema : pyval) (i : nat)
  (urls : list string) : list pyval :=
  match urls with
  | [] => []
  | url :: rest =>
      expected_page app page_schema i url :: expected_pages app page_schema (S i) rest
  end.

(** [isinstance(v, str)] *)
Definition is_str (v : pyval) : bool :=
  match v with
  | VStr _ => true
  | _ => false
  end.

(** The characters of a string, each as a one-character string. *)
Fixpoint letters (s : string) : list string :=
  match s with
  | EmptyString => []
  | String c rest => String c EmptyString :: letters rest
  end.

(** The row of the table that stands for a URL whose extraction failed. *)
Definition fallback_row (url : string) : pyval :=
  VDict
    [("Website URL", VStr url);
     ("Username", VStr (fallback_username url));
     ("Bio", VStr "Bio not available - extraction failed");
     ("Post Type", VStr "question");
     ("Timestamp", VStr "2024-01-01");
     ("Upvotes", VInt 0);
     ("Links", VStr "")].

(** A client none of whose calls gets through. *)
Definition unreachable_app : firecrawl_app :=
  fun _ _ => Raise (ServiceError "unreachable").

(** An agent that answers every message with the same phrase. *)
Definition sample_agent : agent_config -> result agent :=
  fun _ => Ok (fun _ => Ok "AI video editing software").

(** The interaction of a page whose links came back as one string. *)
Definition string_links_interaction : pydict :=
  [("username", VStr "erin"); ("links", VStr "a.io")].

(** A success answer one of whose items has no "url". *)
Definition missing_url_response : http_response :=
  json_response 200
    [("success", VBool true);
     ("data", VList (sample_results ++ VDict [("title", VStr "untitled")]
                       :: sample_results)%list)].

(** ** Strings: [split], the trailing segment and truncation *)

Lemma split_not_nil (sep : ascii) (s : string) : split sep s <> [].
Proof.
  destruct s as [|c rest]; simpl; [discriminate|].
  destruct (Ascii.eqb c sep); [discriminate|].
  destruct (split sep rest); discriminate.
Qed.

Lemma split_no_sep (sep : ascii) (s : string) :
  contains sep s = false -> split sep s = [s].
Proof.
  induction s as [|c rest IH]; simpl; intros H; [reflexivity|].
  apply orb_false_iff in H as [Hc Hrest].
  rewrite Hc, (IH Hrest). reflexivity.
Qed.

Lemma split_app_sep (sep : ascii) (p s : string) :
  split sep (p ++ String sep s) = (split sep p ++ split sep s)%list.
Proof.
  induction p as [|c p IH]; simpl.
  - rewrite Ascii.eqb_refl. reflexivity.
  - destruct (Ascii.eqb c sep); rewrite IH.
    + reflexivity.
    + pose proof (split_not_nil sep p) as Hne.
      destruct (split sep p) as [|seg segs]; [contradiction|reflexivity].
Qed.

Lemma last_app_not_nil {A : Type} (l1 l2 : list A) (d : A) :
  l2 <> [] -> last (l1 ++ l2)%list d = last l2 d.
Proof.
  intros Hne. induction l1 as [|x l1 IH]; simpl; [reflexivity|].
  rewrite IH. destruct (l1 ++ l2)%list eqn:E; [|reflexivity].
  apply app_eq_nil in E as [_ E]. contradiction.
Qed.

(** The trailing segment of [p/s] is the trailing segment of [s]. *)
Lemma trailing_segment_after_slash (p s : string) :
  trailing_segment (p ++ String "/"%char s) = trailing_segment s.
Proof.
  unfold trailing_segment. rewrite split_app_sep.
  apply last_app_not_nil, split_not_nil.
Qed.

Lemma trailing_segment_no_slash (s : string) :
  contains "/"%char s = false -> trailing_segment s = s.
Proof.
  intros H. unfold trailing_segment. rewrite (split_no_sep _ _ H). reflexivity.
Qed.

(** Every string either has no '/', or reads [p/t] with no '/' in [t]. *)
Lemma last_slash_decompose (s : string) :
  contains "/"%char s = false \/
  exists p t, s = p ++ String "/"%char t /\ contains "/"%char t = false.
Proof.
  induction s as [|c rest IH]; [left; reflexivity|].
  destruct (Ascii.eqb c "/"%char) eqn:Hc.
  - apply Ascii.eqb_eq in Hc. subst c. right.
    destruct IH as [Hfree|(p & t & Heq & Hfree)].
    + exists "", rest. split; [reflexivity|assumption].
    + exists (String "/"%char p), t. split; [simpl; rewrite Heq; reflexivity|assumption].
  - destruct IH as [Hfree|(p & t & Heq & Hfree)].
    + left. simpl. rewrite Hc, Hfree. reflexivity.
    + right. exists (String c p), t. split; [simpl; rewrite Heq; reflexivity|assumption].
Qed.

(** The trailing segment is the text after the last '/', or the whole string
    when there is none. *)
Lemma trailing_segment_spec (s : string) :
  (s = trailing_segment s \/ exists p, s = p ++ "/" ++ trailing_segment s) /\
  contains "/"%char (trailing_segment s) = false.
Proof.
  destruct (last_slash_decompose s) as [Hfree|(p & t & Heq & Hfree)].
  - rewrite (trailing_segment_no_slash s Hfree). split; [left; reflexivity|assumption].
  - assert (Hts : trailing_segment s = t).
    { rewrite Heq, trailing_segment_after_slash. apply trailing_segment_no_slash, Hfree. }
    rewrite Hts. split; [right; exists p; exact Heq|assumption].
Qed.

Lemma slice_to_cons (n : nat) (c : ascii) (s : string) :
  slice_to (S n) (String c s) = String c (slice_to n s).
Proof. reflexivity. Qed.

(** [s[:n]] is the prefix of [s] of length [min n (len s)]. *)
Lemma slice_to_prefix (n : nat) (s : string) :
  exists rest, s = slice_to n s ++ rest /\
               String.length (slice_to n s) = Nat.min n (String.length s).
Proof.
  revert s. induction n as [|n IH]; intros s.
  - exists s. destruct s; split; reflexivity.
  - destruct s as [|c s].
    + exists "". split; reflexivity.
    + destruct (IH s) as (rest & Heq & Hlen). exists rest.
      rewrite slice_to_cons. simpl. rewrite Hlen. split; [|reflexivity].
      f_equal. exact Heq.
Qed.

(** ** Fallback synthesis *)

Lemma create_fallback_data_str (url : string) :
  create_fallback_data (VStr url) = Ok (VList [fallback_record (fallback_username url)]).
Proof. reflexivity. Qed.

(** C5 (as amended): for every URL the fallback is exactly one record whose
    username is "User from " followed by the first 15 characters of the
    trailing path segment (the text after the last '/'), with the fixed
    sentinel bio, post type "question", the placeholder timestamp, 0 upvotes
    and no links; for https://quora.com/topic/AI-video-editing the username
    is "User from AI-video-editin". *)
Theorem create_fallback_data_record :
  (forall url : string,
     exists seg trunc rest : string,
       (url = seg \/ exists p, url = p ++ "/" ++ seg) /\
       contains "/"%char seg = false /\
       seg = trunc ++ rest /\
       String.length trunc = Nat.min 15 (String.length seg) /\
       create_fallback_data (VStr url) =
         Ok (VList
               [VDict
                  [("username", VStr ("User from " ++ trunc));
                   ("bio", VStr "Bio not available - extraction failed");
                   ("post_type", VStr "question");
                   ("timestamp", VStr "2024-01-01");
                   ("upvotes", VInt 0);
                   ("links", VList [])]])) /\
  create_fallback_data (VStr "https://quora.com/topic/AI-video-editing") =
    Ok (VList [fallback_record "User from AI-video-editin"]).
Proof.
  split.
  - intros url.
    destruct (trailing_segment_spec url) as [Hseg Hfree].
    destruct (slice_to_prefix 15 (trailing_segment url)) as (rest & Heq & Hlen).
    exists (trailing_segment url), (slice_to 15 (trailing_segment url)), rest.
    repeat split; try assumption.
  - reflexivity.
Qed.

(** C5 as the claim words it fails on its own example: the trailing segment
    "AI-video-editing" has 16 characters, and its first 15 are
    "AI-video-editin", not "AI-video-editi". *)
Example create_fallback_data_scenario_username :
  create_fallback_data (VStr "https://quora.com/topic/AI-video-editing") =
    Ok (VList [fallback_record "User from AI-video-editin"]) /\
  "User from AI-video-editin" <> "User from AI-video-editi" /\
  String.length "AI-video-editin" = 15 /\
  String.length "AI-video-editi" = 14.
Proof.
  repeat split. discriminate.
Qed.

(** C9: fallback synthesis is deterministic: two invocations on the same URL
    return the same single record (the function reads nothing but its
    argument).  Of the URL the record keeps only the truncated trailing
    segment: two URLs give identical records exactly when their trailing
    segments agree on the first 15 characters. *)
Theorem create_fallback_data_deterministic (url1 url2 : string) :
  (url1 = url2 ->
   create_fallback_data (VStr url1) = create_fallback_data (VStr url2)) /\
  (create_fallback_data (VStr url1) = create_fallback_data (VStr url2) <->
   slice_to 15 (trailing_segment url1) = slice_to 15 (trailing_segment url2)) /\
  exists record, create_fallback_data (VStr url1) = Ok (VList [record]).
Proof.
  split; [intros ->; reflexivity|]. split.
  - rewrite !create_fallback_data_str. unfold fallback_record, fallback_username. split.
    + intros H. injection H as H. exact H.
    + intros ->. reflexivity.
  - rewrite create_fallback_data_str. eexists. reflexivity.
Qed.

Lemma create_fallback_data_deterministic_witness :
  create_fallback_data (VStr "https://quora.com/topic/AI-video-editing") =
    create_fallback_data (VStr "https://quora.com/topic/AI-video-editing") /\
  create_fallback_data (VStr "https://quora.com/topic/AI-video-editing") =
    create_fallback_data (VStr "https://www.quora.com/AI-video-editin-tools").
Proof.
  split.
  - exact (proj1 (create_fallback_data_deterministic
                    "https://quora.com/topic/AI-video-editing"
                    "https://quora.com/topic/AI-video-editing") eq_refl).
  - exact (proj2 (proj1 (proj2 (create_fallback_data_deterministic
                                  "https://quora.com/topic/AI-video-editing"
                                  "https://www.quora.com/AI-video-editin-tools")))
             eq_refl).
Defined.

(** C10: the trailing segment is the text after the last '/', with no
    special case: a URL ending in '/' gives the username "User from ", and a
    URL without any '/' gives "User from " followed by its first 15
    characters. *)
Theorem fallback_username_edge_cases (p s : string) :
  contains "/"%char s = false ->
  trailing_segment (p ++ "/" ++ s) = s /\
  create_fallback_data (VStr (p ++ "/")) = Ok (VList [fallback_record "User from "]) /\
  create_fallback_data (VStr s) =
    Ok (VList [fallback_record ("User from " ++ substring 0 15 s)]).
Proof.
  intros Hfree. split; [|split].
  - change (p ++ "/" ++ s) with (p ++ String "/"%char s).
    rewrite trailing_segment_after_slash. apply trailing_segment_no_slash, Hfree.
  - rewrite create_fallback_data_str. unfold fallback_username.
    change (p ++ "/") with (p ++ String "/"%char "").
    rewrite trailing_segment_after_slash. reflexivity.
  - rewrite create_fallback_data_str. unfold fallback_username.
    rewrite (trailing_segment_no_slash s Hfree). reflexivity.
Qed.

Lemma fallback_username_edge_cases_witness :
  contains "/"%char "quora-question-about-editing" = false /\
  trailing_segment ("https://quora.com" ++ "/" ++ "quora-question-about-editing") =
    "quora-question-about-editing" /\
  create_fallback_data (VStr ("https://quora.com" ++ "/")) =
    Ok (VList [fallback_record "User from "]) /\
  create_fallback_data (VStr "quora-question-about-editing") =
    Ok (VList [fallback_record
                 ("User from " ++ substring 0 15 "quora-question-about-editing")]).
Proof.
  split; [reflexivity|].
  apply (fallback_username_edge_cases "https://quora.com" "quora-question-about-editing").
  reflexivity.
Defined.

(** ** CandidateSearcher *)

Lemma url_fields_has_url (items urls : list pyval) :
  Forall2 has_url items urls -> url_fields items = Ok urls.
Proof.
  induction 1 as [|item u items urls (fields & -> & Hurl) _ IH]; simpl; [reflexivity|].
  rewrite Hurl. simpl. rewrite IH. reflexivity.
Qed.

Lemma url_fields_inv (items urls : list pyval) :
  url_fields items = Ok urls -> Forall2 has_url items urls.
Proof.
  revert urls. induction items as [|item items IH]; simpl; intros urls H.
  - injection H as <-. constructor.
  - destruct item; try discriminate. unfold getitem in H.
    destruct (dict_get d "url") as [u|] eqn:Hu; simpl in H; [|discriminate].
    destruct (url_fields items) as [us|e]; simpl in H; [|discriminate].
    injection H as <-. constructor; [exists d; split; [reflexivity|assumption]|].
    apply IH. reflexivity.
Qed.

Lemma has_url_all (items : list pyval) :
  Forall (fun item => exists u, has_url item u) items ->
  exists urls, Forall2 has_url items urls.
Proof.
  induction 1 as [|item items [u Hu] _ [urls IH]].
  - exists []. constructor.
  - exists (u :: urls). constructor; assumption.
Qed.

Section SearchAnswers.

Variable post : search_request -> result http_response.
Variables (company_description firecrawl_api_key : string) (num_links : Z).
Variable answer : http_response.
Hypothesis post_answer :
  post (search_request_for company_description firecrawl_api_key num_links) = Ok answer.

Lemma search_non_200 :
  status_code answer <> 200%Z ->
  search_for_urls post company_description firecrawl_api_key num_links = Ok [].
Proof.
  intros Hs. unfold search_for_urls. rewrite post_answer. simpl.
  apply Z.eqb_neq in Hs. rewrite Hs. reflexivity.
Qed.

Lemma search_200_object (d : pydict) :
  status_code answer = 200%Z -> json_body answer = Some (VDict d) ->
  search_for_urls post company_description firecrawl_api_key num_links =
    if success_flag d then
      items <- iter (match dict_get d "data" with Some v => v | None => VList [] end) ;;
      url_fields items
    else Ok [].
Proof.
  intros Hs Hb. unfold search_for_urls, response_json, success_flag.
  rewrite post_answer. simpl. rewrite Hs, Hb. simpl.
  destruct (dict_get d "success") as [v|]; simpl; [|reflexivity].
  destruct (truthy v); [|reflexivity].
  destruct (dict_get d "data"); reflexivity.
Qed.

End SearchAnswers.

(** C3 (as amended): when the status is not 200, or the status is 200 and
    the body is a JSON object whose "success" entry is absent or falsy,
    [search_for_urls] returns the empty sequence without raising; when the
    status is 200 and the body is an object with a truthy "success", it
    returns the "url" entry of each item of the "data" list, in the order of
    the service, duplicates and malformed URLs included (no items when "data"
    is absent). *)
Theorem search_for_urls_result_handling
  (post : search_request -> result http_response)
  (company_description firecrawl_api_key : string) (num_links : Z)
  (answer : http_response) :
  post (search_request_for company_description firecrawl_api_key num_links) = Ok answer ->
  (status_code answer <> 200%Z ->
   search_for_urls post company_description firecrawl_api_key num_links = Ok []) /\
  (forall d,
     status_code answer = 200%Z -> json_body answer = Some (VDict d) ->
     success_flag d = false ->
     search_for_urls post company_description firecrawl_api_key num_links = Ok []) /\
  (forall d,
     status_code answer = 200%Z -> json_body answer = Some (VDict d) ->
     success_flag d = true -> dict_get d "data" = None ->
     search_for_urls post company_description firecrawl_api_key num_links = Ok []) /\
  (forall d items urls,
     status_code answer = 200%Z -> json_body answer = Some (VDict d) ->
     success_flag d = true -> dict_get d "data" = Some (VList items) ->
     (search_for_urls post company_description firecrawl_api_key num_links = Ok urls <->
      Forall2 has_url items urls)).
Proof.
  intros Hpost. split; [|split; [|split]].
  - apply search_non_200 with (answer := answer); assumption.
  - intros d Hs Hb Hflag.
    rewrite (search_200_object post _ _ _ answer Hpost d Hs Hb), Hflag. reflexivity.
  - intros d Hs Hb Hflag Hdata.
    rewrite (search_200_object post _ _ _ answer Hpost d Hs Hb), Hflag, Hdata. reflexivity.
  - intros d items urls Hs Hb Hflag Hdata.
    rewrite (search_200_object post _ _ _ answer Hpost d Hs Hb), Hflag, Hdata. simpl.
    split; [apply url_fields_inv|apply url_fields_has_url].
Qed.

Lemma sample_results_urls : Forall2 has_url sample_results sample_urls.
Proof.
  repeat constructor; eexists; (split; [reflexivity|reflexivity]).
Qed.

Lemma search_for_urls_result_handling_witness :
  search_for_urls (fun _ => Ok sample_success) "AI video editing software" "fc-key" 4 =
    Ok sample_urls.
Proof.
  exact (proj2 (proj2 (proj2 (proj2
                  (search_for_urls_result_handling
                     (fun _ => Ok sample_success) "AI video editing software" "fc-key" 4
                     sample_success eq_refl)))
                  _ sample_results sample_urls eq_refl eq_refl eq_refl eq_refl)
           sample_results_urls).
Defined.

(** C3 as the claim words it fails: a 200 answer whose body is a JSON array,
    or is not JSON at all, carries no true success indicator, yet
    [search_for_urls] raises instead of returning the empty sequence (a list
    has no [get]; [json()] raises); and a body whose "success" is 1 rather
    than true is treated as a success. *)
Example search_for_urls_raises_on_array_body :
  (has_true_success array_body_response = false /\
   search_for_urls (fun _ => Ok array_body_response)
     "AI video editing software" "fc-key" 4 = Raise AttributeError) /\
  (has_true_success html_body_response = false /\
   search_for_urls (fun _ => Ok html_body_response)
     "AI video editing software" "fc-key" 4 = Raise JSONDecodeError) /\
  (has_true_success numeric_success_response = false /\
   search_for_urls (fun _ => Ok numeric_success_response)
     "AI video editing software" "fc-key" 4 = Ok sample_urls).
Proof. repeat split. Qed.

(** C4 (as amended): for a limit L in [1,15], [search_for_urls] sends L as
    the request's limit and, on a success answer whose "data" is a list of
    items each carrying "url", returns exactly one URL per item in the order
    of the service, without truncating to L: the result has at most L URLs
    exactly when the service answered with at most L items. *)
Theorem search_for_urls_limit
  (post : search_request -> result http_response)
  (company_description firecrawl_api_key : string) (L : Z)
  (answer : http_response) (d : pydict) (items : list pyval) :
  (1 <= L <= 15)%Z ->
  post (search_request_for company_description firecrawl_api_key L) = Ok answer ->
  status_code answer = 200%Z -> json_body answer = Some (VDict d) ->
  success_flag d = true -> dict_get d "data" = Some (VList items) ->
  Forall (fun item => exists u, has_url item u) items ->
  limit (request_json (search_request_for company_description firecrawl_api_key L)) = L /\
  exists urls,
    search_for_urls post company_description firecrawl_api_key L = Ok urls /\
    Forall2 has_url items urls /\
    length urls = length items /\
    ((Z.of_nat (length urls) <= L)%Z <-> (Z.of_nat (length items) <= L)%Z).
Proof.
  intros _ Hpost Hs Hb Hflag Hdata Hitems. split; [reflexivity|].
  destruct (has_url_all items Hitems) as [urls Hurls].
  exists urls.
  assert (Hlen : length urls = length items)
    by (symmetry; apply (Forall2_length Hurls)).
  split; [|split; [exact Hurls|split; [exact Hlen|rewrite Hlen; reflexivity]]].
  rewrite (search_200_object post _ _ _ answer Hpost d Hs Hb), Hflag, Hdata. simpl.
  apply url_fields_has_url, Hurls.
Qed.

Lemma sample_results_have_urls :
  Forall (fun item => exists u, has_url item u) sample_results.
Proof.
  repeat constructor; eexists; eexists; (split; [reflexivity|reflexivity]).
Qed.

Lemma search_for_urls_limit_witness :
  limit (request_json (search_request_for "AI video editing software" "fc-key" 4)) = 4%Z /\
  exists urls,
    search_for_urls (fun _ => Ok sample_success) "AI video editing software" "fc-key" 4 =
      Ok urls /\
    Forall2 has_url sample_results urls /\
    length urls = length sample_results /\
    ((Z.of_nat (length urls) <= 4)%Z <-> (Z.of_nat (length sample_results) <= 4)%Z).
Proof.
  apply (search_for_urls_limit
           (fun _ => Ok sample_success) "AI video editing software" "fc-key" 4
           sample_success
           [("success", VBool true); ("data", VList sample_results)] sample_results).
  - lia.
  - reflexivity.
  - reflexivity.
  - reflexivity.
  - reflexivity.
  - reflexivity.
  - exact sample_results_have_urls.
Defined.

(** C4 as the claim words it fails: with limit 2 and a service that answers
    with three items, [search_for_urls] returns all three URLs. *)
Example search_for_urls_exceeds_limit :
  (1 <= 2 <= 15)%Z /\
  search_for_urls (fun _ => Ok sample_success) "AI video editing software" "fc-key" 2 =
    Ok sample_urls /\
  (2 < Z.of_nat (length sample_urls))%Z.
Proof. repeat split; lia. Qed.

(** ** PageExtractor *)

Lemma fallback_page_str (url : string) :
  fallback_page (VStr url) =
    Ok (page_result (VStr url) (VList [fallback_record (fallback_username url)])).
Proof. reflexivity. Qed.

Lemma truthy_not_empty_list (v : pyval) : truthy v = true -> v <> VList [].
Proof. intros H ->. discriminate. Qed.

Section OneClient.

Variable page_schema : pyval.
Variable app : firecrawl_app.

(** The inner [try]/[except] for any URL value: the recovered interactions
    when there are some, the fallback page (or its exception) otherwise. *)
Lemma guarded_extract_one_cases (calls : nat) (url : pyval) :
  try_except (extract_one page_schema app calls url) (fun _ => fallback_page url) =
    match recovered_interactions (app calls (extract_call_for page_schema url)) with
    | Some interactions => Ok (page_result url interactions)
    | None => fallback_page url
    end.
Proof.
  unfold extract_one, recovered_interactions, extract_call_for.
  destruct (app calls _) as [r|e]; [simpl|reflexivity].
  destruct (extracted_data_of r) as [d|e]; [simpl|reflexivity].
  destruct d as [|entry d]; [simpl; destruct (fallback_page url); reflexivity|].
  unfold dict_contains, getitem. cbn [truthy andb].
  destruct (dict_get (entry :: d) "interactions") as [interactions|]; simpl;
    [|destruct (fallback_page url); reflexivity].
  destruct (truthy interactions); [reflexivity|].
  destruct (fallback_page url); reflexivity.
Qed.

Lemma extract_loop_exact (urls : list string) :
  forall calls user_info_list,
    extract_loop page_schema app calls (map VStr urls) user_info_list =
      ((user_info_list ++ expected_pages app page_schema calls urls)%list, None).
Proof.
  induction urls as [|url urls IH]; intros calls acc; simpl.
  - rewrite app_nil_r. reflexivity.
  - rewrite guarded_extract_one_cases. unfold expected_page.
    destruct (recovered_interactions _) as [interactions|]; simpl;
      rewrite IH, <- app_assoc; reflexivity.
Qed.

Lemma expected_pages_length (urls : list string) :
  forall i, length (expected_pages app page_schema i urls) = length urls.
Proof.
  induction urls as [|url urls IH]; intros i; simpl; [reflexivity|].
  rewrite IH. reflexivity.
Qed.

Lemma expected_pages_nth (urls : list string) :
  forall calls i url,
    nth_error urls i = Some url ->
    nth_error (expected_pages app page_schema calls urls) i =
      Some (expected_page app page_schema (calls + i) url).
Proof.
  induction urls as [|head urls IH]; intros calls [|i] url H; simpl in H;
    try discriminate.
  - injection H as ->. simpl. rewrite Nat.add_0_r. reflexivity.
  - simpl. rewrite (IH (S calls) i url H).
    replace (S calls + i) with (calls + S i) by lia. reflexivity.
Qed.

End OneClient.

Lemma recovered_interactions_truthy (answer : result response) (interactions : pyval) :
  recovered_interactions answer = Some interactions -> truthy interactions = true.
Proof.
  unfold recovered_interactions.
  destruct answer as [r|e]; [|discriminate].
  destruct (extracted_data_of r) as [d|e]; [|discriminate].
  destruct (dict_get d "interactions") as [v|]; [|discriminate].
  destruct (truthy v) eqn:Ht; [|discriminate].
  intros H. injection H as <-. exact Ht.
Qed.

(** C1 (as amended): once the client is constructed,
    [extract_user_info_from_urls] returns, for every list of URL strings,
    exactly one page per URL in input order.  The page at position i carries
    the i-th URL and interactions that pass Python's truth test: the
    "interactions" entry of the payload recovered from the i-th [extract]
    call, unchanged and whatever its type, when that entry is there and
    truthy (so never an empty list), and otherwise the list holding the one
    fallback record of that URL.  This holds whatever the client does on any
    call, so a failure on one URL never stops the later ones. *)
Theorem extract_user_info_one_page_per_url
  (FirecrawlApp : string -> result firecrawl_app) (page_schema : pyval)
  (firecrawl_api_key : string) (app : firecrawl_app) (urls : list string) :
  FirecrawlApp firecrawl_api_key = Ok app ->
  exists pages,
    extract_user_info_from_urls FirecrawlApp page_schema (map VStr urls) firecrawl_api_key =
      Ok pages /\
    length pages = length urls /\
    forall i url, nth_error urls i = Some url ->
      exists interactions,
        nth_error pages i = Some (page_result (VStr url) interactions) /\
        truthy interactions = true /\
        interactions <> VList [] /\
        match recovered_interactions (app i (extract_call_for page_schema (VStr url))) with
        | Some recovered => interactions = recovered
        | None =>
            interactions =
              VList
                [VDict
                   [("username",
                     VStr ("User from " ++ slice_to 15 (trailing_segment url)));
                    ("bio", VStr "Bio not available - extraction failed");
                    ("post_type", VStr "question");
                    ("timestamp", VStr "2024-01-01");
                    ("upvotes", VInt 0);
                    ("links", VList [])]]
        end.
Proof.
  intros Hclient. unfold extract_user_info_from_urls. rewrite Hclient. simpl.
  rewrite extract_loop_exact. simpl.
  exists (expected_pages app page_schema 0 urls).
  split; [reflexivity|]. split; [apply expected_pages_length|].
  intros i url Hi. rewrite (expected_pages_nth page_schema app urls 0 i url Hi). simpl.
  unfold expected_page.
  destruct (recovered_interactions (app i (extract_call_for page_schema (VStr url))))
    as [recovered|] eqn:Hrec.
  - exists recovered. pose proof (recovered_interactions_truthy _ _ Hrec) as Ht.
    split; [reflexivity|]. split; [exact Ht|].
    split; [apply truthy_not_empty_list, Ht|reflexivity].
  - eexists. split; [reflexivity|]. split; [reflexivity|].
    split; [discriminate|reflexivity].
Qed.

Lemma extract_user_info_one_page_per_url_witness :
  exists pages,
    extract_user_info_from_urls (fun _ => Ok sample_app) VNone
      (map VStr ["https://quora.com/topic/AI-video-editing";
                 "https://quora.com/What-is-the-best-AI-video-editor"])
      "fc-key" = Ok pages /\
    length pages = 2 /\
    nth_error pages 0 =
      Some (page_result (VStr "https://quora.com/topic/AI-video-editing")
              (VList [fallback_record "User from AI-video-editin"])) /\
    nth_error pages 1 =
      Some (page_result (VStr "https://quora.com/What-is-the-best-AI-video-editor")
              sample_interactions).
Proof.
  destruct (extract_user_info_one_page_per_url
              (fun _ => Ok sample_app) VNone "fc-key" sample_app
              ["https://quora.com/topic/AI-video-editing";
               "https://quora.com/What-is-the-best-AI-video-editor"]
              eq_refl) as (pages & Hrun & Hlen & Hnth).
  exists pages. split; [exact Hrun|]. split; [exact Hlen|]. split.
  - destruct (Hnth 0 "https://quora.com/topic/AI-video-editing" eq_refl)
      as (interactions & Hpage & _ & _ & Hwhich).
    simpl in Hwhich. rewrite Hpage, Hwhich. reflexivity.
  - destruct (Hnth 1 "https://quora.com/What-is-the-best-AI-video-editor" eq_refl)
      as (interactions & Hpage & _ & _ & Hwhich).
    simpl in Hwhich. rewrite Hpage, Hwhich. reflexivity.
Defined.

(** C1 as the claim words it fails: the test on the recovered interactions
    is Python's truth test, not a test for a list, so an "interactions" entry
    that is the number 7 becomes the page's interactions, and the normalizer
    then raises on that page; and when the client cannot be constructed no
    page is returned at all. *)
Example extract_user_info_passes_non_list_through :
  extract_user_info_from_urls (fun _ => Ok number_interactions_app) VNone
    [VStr "https://quora.com/topic/AI-video-editing"] "fc-key" =
    Ok [page_result (VStr "https://quora.com/topic/AI-video-editing") (VInt 7)] /\
  format_user_info_to_flattened_json
    [page_result (VStr "https://quora.com/topic/AI-video-editing") (VInt 7)] =
    Raise TypeError /\
  extract_user_info_from_urls rejecting_client VNone
    [VStr "https://quora.com/What-is-the-best-AI-video-editor"] "fc-key" =
    Raise ValueError.
Proof. repeat split. Qed.

(** The run of the sample client: the first URL, whose call timed out, gets
    the fallback record; the second keeps its extracted interactions. *)
Example extract_user_info_sample_run :
  extract_user_info_from_urls (fun _ => Ok sample_app) VNone
    [VStr "https://quora.com/topic/AI-video-editing";
     VStr "https://quora.com/What-is-the-best-AI-video-editor"]
    "fc-key" =
  Ok [page_result (VStr "https://quora.com/topic/AI-video-editing")
        (VList [fallback_record "User from AI-video-editin"]);
      page_result (VStr "https://quora.com/What-is-the-best-AI-video-editor")
        sample_interactions].
Proof. reflexivity. Qed.

(** The client is constructed before the outer [try]: when construction
    raises, the exception leaves the function. *)
Lemma extract_user_info_client_failure
  (FirecrawlApp : string -> result firecrawl_app) (page_schema : pyval)
  (urls : list pyval) (firecrawl_api_key : string) (e : pyexn) :
  FirecrawlApp firecrawl_api_key = Raise e ->
  extract_user_info_from_urls FirecrawlApp page_schema urls firecrawl_api_key = Raise e.
Proof.
  intros H. unfold extract_user_info_from_urls. rewrite H. reflexivity.
Qed.

(** C2, at the failing input: with a client constructor that raises, the
    function raises instead of returning one fallback page per URL. *)
Example extract_user_info_raises_without_client :
  extract_user_info_from_urls rejecting_client VNone
    [VStr "https://quora.com/topic/AI-video-editing"] "" = Raise ValueError /\
  fallback_all [VStr "https://quora.com/topic/AI-video-editing"] [] =
    Ok [page_result (VStr "https://quora.com/topic/AI-video-editing")
          (VList [fallback_record "User from AI-video-editin"])].
Proof. split; reflexivity. Qed.

(** *** URLs that are not strings

    [search_for_urls] hands over whatever the service put under "url".
    [create_fallback_data] raises on a URL that is not a string, in the inner
    handler and again in the outer one, so the outer handler never completes
    after such a failure: the function either raises or returns the pages of
    the loop, one per URL. *)

Lemma fallback_page_ok (url page : pyval) :
  fallback_page url = Ok page ->
  exists interactions,
    page = page_result url interactions /\ truthy interactions = true.
Proof.
  unfold fallback_page. destruct url; simpl; try discriminate.
  intros H. injection H as <-. eexists. split; reflexivity.
Qed.

Section AnyUrl.

Variable page_schema : pyval.
Variable app : firecrawl_app.

Lemma extract_one_page (calls : nat) (url page : pyval) :
  extract_one page_schema app calls url = Ok page ->
  exists interactions,
    page = page_result url interactions /\ truthy interactions = true.
Proof.
  unfold extract_one. intros H.
  destruct (app calls _) as [r|e]; [simpl in H|discriminate].
  destruct (extracted_data_of r) as [d|e]; [simpl in H|discriminate].
  destruct (_ && _); [|apply fallback_page_ok, H].
  unfold getitem in H.
  destruct (dict_get d "interactions") as [interactions|]; simpl in H; [|discriminate].
  destruct (truthy interactions) eqn:Ht; [|apply fallback_page_ok, H].
  injection H as <-. exists interactions. split; [reflexivity|assumption].
Qed.

(** The loop either runs to its end, having appended one page per URL, or
    stops at a URL for which not even the fallback can be built. *)
Lemma extract_loop_outcome (urls : list pyval) :
  forall (calls : nat) (user_info_list out : list pyval) (stopped : option pyexn),
    extract_loop page_schema app calls urls user_info_list = (out, stopped) ->
    match stopped with
    | None =>
        exists pages,
          out = (user_info_list ++ pages)%list /\
          Forall2 (fun url page =>
                     exists interactions,
                       page = page_result url interactions /\
                       truthy interactions = true) urls pages
    | Some _ => exists url e, In url urls /\ fallback_page url = Raise e
    end.
Proof.
  induction urls as [|url urls IH]; intros calls acc out stopped; simpl.
  - intros H. injection H as <- <-. exists []. rewrite app_nil_r.
    split; [reflexivity|constructor].
  - destruct (try_except _ _) as [page|e] eqn:Hbody.
    + intros H. apply IH in H. destruct stopped as [e|].
      * destruct H as (u & e' & Hin & Hu). exists u, e'.
        split; [right; assumption|assumption].
      * destruct H as (pages & -> & HF). exists (page :: pages).
        rewrite <- app_assoc. split; [reflexivity|]. constructor; [|assumption].
        unfold try_except in Hbody.
        destruct (extract_one page_schema app calls url) as [p|e] eqn:Hone.
        -- injection Hbody as <-. apply (extract_one_page calls), Hone.
        -- apply fallback_page_ok, Hbody.
    + intros H. injection H as <- <-. exists url, e. split; [left; reflexivity|].
      unfold try_except in Hbody.
      destruct (extract_one page_schema app calls url); [discriminate|assumption].
Qed.

End AnyUrl.

Lemma fallback_all_raises (urls : list pyval) :
  (exists url e, In url urls /\ fallback_page url = Raise e) ->
  forall user_info_list, exists e, fallback_all urls user_info_list = Raise e.
Proof.
  induction urls as [|url urls IH]; intros (u & e & Hin & Hu) acc; simpl.
  - contradiction.
  - destruct (fallback_page url) as [page|e'] eqn:Hp; simpl; [|exists e'; reflexivity].
    apply IH. destruct Hin as [->|Hin]; [congruence|]. exists u, e. split; assumption.
Qed.

(** Whatever the URLs are, a returned list holds exactly one page per URL,
    in order, each with its URL and truthy interactions. *)
Lemma extract_user_info_returned_pages
  (FirecrawlApp : string -> result firecrawl_app) (page_schema : pyval)
  (urls : list pyval) (firecrawl_api_key : string) (pages : list pyval) :
  extract_user_info_from_urls FirecrawlApp page_schema urls firecrawl_api_key = Ok pages ->
  Forall2 (fun url page =>
             exists interactions,
               page = page_result url interactions /\ truthy interactions = true)
          urls pages.
Proof.
  unfold extract_user_info_from_urls.
  destruct (FirecrawlApp firecrawl_api_key) as [app|e]; [simpl|discriminate].
  destruct (extract_loop page_schema app 0 urls []) as [out [e|]] eqn:Hloop;
    apply extract_loop_outcome in Hloop.
  - intros H. destruct (fallback_all_raises urls Hloop out) as [e' He']. congruence.
  - destruct Hloop as (ps & -> & HF). intros H. injection H as <-. exact HF.
Qed.

(** A run that reaches the outer handler: every call fails and the second
    URL is null, so the fallback for it raises in both handlers. *)
Example extract_user_info_null_url :
  extract_user_info_from_urls (fun _ => Ok (fun _ _ => Raise (ServiceError "unreachable")))
    VNone [VStr "https://quora.com/topic/AI-video-editing"; VNone] "fc-key" =
  Raise AttributeError.
Proof. reflexivity. Qed.

(** *** Recovering the payload from the response object *)

Lemma extracted_data_applicable (r : response) (data : pyval) :
  attr_data r = Some data -> truthy data = true ->
  extracted_data_of r = Ok (dict_or_empty (unwrap_first data)).
Proof.
  intros Hd Ht. unfold extracted_data_of. rewrite Hd, Ht.
  destruct data as [| | | | |[|first rest]|]; reflexivity.
Qed.

Lemma extracted_data_not_applicable (r : response) :
  data_applicable r = false ->
  extracted_data_of r =
    match attr_dict r with
    | Some d => Ok d
    | None =>
        match as_mapping r with
        | Some converted => converted
        | None => Ok []
        end
    end.
Proof.
  unfold data_applicable, extracted_data_of.
  destruct (attr_data r) as [data|]; [|reflexivity].
  intros ->. reflexivity.
Qed.

Lemma strategy_data_applicable (r : response) (data : pyval) :
  attr_data r = Some data -> truthy data = true ->
  strategy_data r = mapping_of (unwrap_first data).
Proof.
  intros Hd Ht. unfold strategy_data. rewrite Hd, Ht.
  destruct data as [| | | | |[|first rest]|]; reflexivity.
Qed.

Lemma strategy_data_not_applicable (r : response) :
  data_applicable r = false -> strategy_data r = None.
Proof.
  unfold data_applicable, strategy_data.
  destruct (attr_data r) as [data|]; [|reflexivity].
  intros ->. reflexivity.
Qed.

Lemma usable_dict_or_empty (v : pyval) (d : pydict) :
  dict_or_empty v = d -> usable d = true -> mapping_of v = Some d.
Proof.
  destruct v; simpl; intros <- H; try discriminate. reflexivity.
Qed.

(** C8 (as amended): the payload is recovered by the first test that
    applies, in the fixed order (a), (b), (c), and the strategy so selected
    alone determines it:
    (a) a "data" attribute that is present and truthy gives its value,
        unwrapped to its first element when it is a non-empty list, if that
        is a mapping, and the empty mapping otherwise;
    (b) otherwise an attribute bag, when the response has one, is taken as
        it is;
    (c) otherwise the response converted to a mapping when it has [items],
        and the empty mapping when it has not.
    Whenever the result is a non-empty mapping, it is the one the first
    usable strategy of the chain yields. *)
Theorem extracted_data_dispatch (r : response) :
  (forall data,
     attr_data r = Some data -> truthy data = true ->
     extracted_data_of r = Ok (dict_or_empty (unwrap_first data))) /\
  (forall d,
     data_applicable r = false -> attr_dict r = Some d ->
     extracted_data_of r = Ok d) /\
  (forall converted,
     data_applicable r = false -> attr_dict r = None ->
     as_mapping r = Some converted ->
     extracted_data_of r = converted) /\
  (data_applicable r = false -> attr_dict r = None -> as_mapping r = None ->
   extracted_data_of r = Ok []) /\
  (forall d,
     extracted_data_of r = Ok d -> usable d = true ->
     spec_recover_payload r = Some d).
Proof.
  split; [exact (extracted_data_applicable r)|].
  split; [intros d Hna Hd; rewrite (extracted_data_not_applicable r Hna), Hd; reflexivity|].
  split; [intros c Hna Hd Hm;
          rewrite (extracted_data_not_applicable r Hna), Hd, Hm; reflexivity|].
  split; [intros Hna Hd Hm;
          rewrite (extracted_data_not_applicable r Hna), Hd, Hm; reflexivity|].
  intros d Hex Hus. unfold spec_recover_payload.
  destruct (data_applicable r) eqn:Happ.
  - unfold data_applicable in Happ.
    destruct (attr_data r) as [data|] eqn:Hdata; [|discriminate].
    rewrite (extracted_data_applicable r data Hdata Happ) in Hex. injection Hex as Hex.
    rewrite (strategy_data_applicable r data Hdata Happ).
    rewrite (usable_dict_or_empty _ _ Hex Hus). simpl. rewrite Hus. reflexivity.
  - rewrite (extracted_data_not_applicable r Happ) in Hex.
    rewrite (strategy_data_not_applicable r Happ).
    unfold strategy_attribute_bag, strategy_mapping. simpl.
    destruct (attr_dict r) as [bag|].
    + injection Hex as ->. rewrite Hus. reflexivity.
    + destruct (as_mapping r) as [converted|].
      * rewrite Hex. simpl. rewrite Hus. reflexivity.
      * injection Hex as <-. discriminate.
Qed.

Lemma extracted_data_dispatch_witness :
  extracted_data_of sample_response = Ok [("interactions", sample_interactions)] /\
  spec_recover_payload sample_response = Some [("interactions", sample_interactions)].
Proof.
  split.
  - exact (proj1 (extracted_data_dispatch sample_response)
             (VDict [("interactions", sample_interactions)]) eq_refl eq_refl).
  - exact (proj2 (proj2 (proj2 (proj2 (extracted_data_dispatch sample_response))))
             [("interactions", sample_interactions)] eq_refl eq_refl).
Defined.

(** C8 as the claim words it fails: the first strategy whose test applies is
    final even when it yields nothing usable.  An instance of a dict subclass
    has an (empty) attribute bag, so (b) yields the empty mapping and (c),
    which would yield the payload, is never tried; an object whose truthy
    "data" is not a mapping stops at (a) although its attribute bag holds
    the interactions. *)
Example extracted_data_stops_at_first_applicable :
  (extracted_data_of dict_subclass_response = Ok [] /\
   spec_recover_payload dict_subclass_response =
     Some [("interactions", sample_interactions)]) /\
  (extracted_data_of raw_data_response = Ok [] /\
   spec_recover_payload raw_data_response =
     Some [("data", VStr "raw page text"); ("interactions", sample_interactions)]).
Proof. repeat split. Qed.

(** ** Normalizer *)

Lemma flattened_interaction_dict (website_url : pyval) (d : pydict) :
  flattened_interaction website_url (VDict d) =
    joined <- join ", " (field_or d "links" (VList [])) ;;
    Ok (VDict
          [("Website URL", website_url);
           ("Username", field_or d "username" (VStr ""));
           ("Bio", field_or d "bio" (VStr ""));
           ("Post Type", field_or d "post_type" (VStr ""));
           ("Timestamp", field_or d "timestamp" (VStr ""));
           ("Upvotes", field_or d "upvotes" (VInt 0));
           ("Links", VStr joined)]).
Proof.
  unfold flattened_interaction, get, field_or.
  destruct (dict_get d "username"), (dict_get d "bio"), (dict_get d "post_type"),
    (dict_get d "timestamp"), (dict_get d "upvotes"), (dict_get d "links"); reflexivity.
Qed.

(** The normalizer emits a row for an interaction exactly when the
    interaction is a mapping with joinable links. *)
Lemma flattenable_iff (website_url interaction : pyval) :
  flattenable interaction = true <-> exists row, row_of website_url interaction row.
Proof.
  unfold row_of. split.
  - destruct interaction as [| | | | | |d]; try discriminate.
    unfold flattenable. rewrite flattened_interaction_dict. unfold field_or.
    destruct (join ", " _) as [joined|e]; [|discriminate].
    intros _. eexists. reflexivity.
  - intros [row H]. destruct interaction as [| | | | | |d]; try discriminate.
    rewrite flattened_interaction_dict in H. unfold flattenable, field_or in *.
    destruct (join ", " _) as [joined|e]; [reflexivity|discriminate].
Qed.

Lemma flattenable_all (website_url : pyval) (interactions : list pyval) :
  forallb flattenable interactions = true <->
  exists rows, Forall2 (row_of website_url) interactions rows.
Proof.
  induction interactions as [|interaction rest IH]; simpl.
  - split; [intros _; exists []; constructor|reflexivity].
  - rewrite andb_true_iff, IH, (flattenable_iff website_url). split.
    + intros [[row Hrow] [rows Hrows]]. exists (row :: rows). constructor; assumption.
    + intros [rows H]. inversion H; subst. split; eexists; eassumption.
Qed.

Lemma page_flattenable_iff (page : pyval) :
  page_flattenable page = true <-> exists rows, rows_of_page page rows.
Proof.
  unfold page_flattenable, rows_of_page, interactions_of. split.
  - destruct (getitem page "website_url") as [url|e]; [|discriminate].
    destruct (getitem page "user_info") as [ui|e]; [simpl|discriminate].
    destruct (iter ui) as [items|e] eqn:Hit; [|discriminate].
    intros H. apply (flattenable_all url) in H as [rows H].
    exists rows, url, ui. repeat split; assumption.
  - intros (rows & url & ui & -> & -> & Hit & HF). simpl in *.
    destruct (iter ui) as [items|e]; [|discriminate].
    apply (flattenable_all url). exists rows. exact HF.
Qed.

(** The inner loop appends one row per interaction, in order, or raises. *)
Lemma flatten_interactions_ok (website_url : pyval) (interactions : list pyval) :
  forall flattened_data out,
    flatten_interactions website_url interactions flattened_data = Ok out <->
    exists rows,
      Forall2 (row_of website_url) interactions rows /\
      out = (flattened_data ++ rows)%list.
Proof.
  induction interactions as [|interaction rest IH]; intros acc out; simpl.
  - split.
    + intros H. injection H as <-. exists []. split; [constructor|].
      rewrite app_nil_r. reflexivity.
    + intros (rows & HF & ->). inversion HF; subst. rewrite app_nil_r. reflexivity.
  - split.
    + destruct (flattened_interaction website_url interaction) as [row|e] eqn:Hrow;
        [simpl|discriminate].
      intros H. apply IH in H as (rows & HF & ->).
      exists (row :: rows). split; [constructor; assumption|].
      rewrite <- app_assoc. reflexivity.
    + intros (rows & HF & ->). inversion HF as [|? row ? rows' Hrow HF']; subst.
      unfold row_of in Hrow. rewrite Hrow. simpl. apply IH.
      exists rows'. split; [assumption|]. rewrite <- app_assoc. reflexivity.
Qed.

(** The outer loop appends the rows of each page, page after page. *)
Lemma flatten_pages_ok (pages : list pyval) :
  forall flattened_data out,
    flatten_pages pages flattened_data = Ok out <->
    exists rows_per_page,
      Forall2 rows_of_page pages rows_per_page /\
      out = (flattened_data ++ concat rows_per_page)%list.
Proof.
  induction pages as [|page rest IH]; intros acc out; simpl.
  - split.
    + intros H. injection H as <-. exists []. split; [constructor|].
      rewrite app_nil_r. reflexivity.
    + intros (rpp & HF & ->). inversion HF; subst. simpl. rewrite app_nil_r. reflexivity.
  - split.
    + destruct (getitem page "website_url") as [url|e] eqn:Hurl; [simpl|discriminate].
      destruct (getitem page "user_info") as [ui|e] eqn:Hui; [simpl|discriminate].
      destruct (iter ui) as [items|e] eqn:Hit; [simpl|discriminate].
      destruct (flatten_interactions url items acc) as [acc'|e] eqn:Hfl;
        [simpl|discriminate].
      intros H. apply IH in H as (rpp & HF & ->).
      apply flatten_interactions_ok in Hfl as (rows & HFrows & ->).
      exists (rows :: rpp). split.
      * constructor; [|assumption]. exists url, ui. unfold interactions_of.
        rewrite Hui. simpl. rewrite Hit. repeat split; assumption.
      * simpl. rewrite app_assoc. reflexivity.
    + intros (rpp & HF & ->).
      inversion HF as [|? rows ? rpp' (url & ui & Hurl & Hui & Hit & HFrows) HF']; subst.
      rewrite Hurl, Hui. simpl. rewrite Hit. simpl.
      assert (Hfl : flatten_interactions url (interactions_of page) acc =
                    Ok (acc ++ rows)%list).
      { apply flatten_interactions_ok. exists rows. split; [assumption|reflexivity]. }
      rewrite Hfl. simpl. apply IH. exists rpp'. split; [assumption|].
      simpl. rewrite app_assoc. reflexivity.
Qed.

Lemma rows_of_pages_all (pages : list pyval) :
  forallb page_flattenable pages = true <->
  exists rows_per_page, Forall2 rows_of_page pages rows_per_page.
Proof.
  induction pages as [|page rest IH]; simpl.
  - split; [intros _; exists []; constructor|reflexivity].
  - rewrite andb_true_iff, IH, page_flattenable_iff. split.
    + intros [[rows Hrows] [rpp Hrpp]]. exists (rows :: rpp). constructor; assumption.
    + intros [rpp H]. inversion H; subst. split; eexists; eassumption.
Qed.

Lemma rows_of_pages_length (pages : list pyval) (rows_per_page : list (list pyval)) :
  Forall2 rows_of_page pages rows_per_page ->
  length (concat rows_per_page) =
    list_sum (map (fun page => length (interactions_of page)) pages).
Proof.
  induction 1 as [|page rows pages rpp (url & ui & _ & _ & _ & HF) _ IH]; simpl;
    [reflexivity|].
  rewrite length_app, IH, (Forall2_length HF). reflexivity.
Qed.

(** C6: the normalizer returns exactly when every page can be flattened
    (it raises otherwise); the rows it returns are, page after page in page
    order, one row per interaction in the order of the page's interactions,
    so their number is the sum of the pages' interaction counts: no row is
    dropped, moved or merged. *)
Theorem format_user_info_row_count (user_info_list : list pyval) :
  ((exists rows, format_user_info_to_flattened_json user_info_list = Ok rows) <->
   forallb page_flattenable user_info_list = true) /\
  (forall rows,
     format_user_info_to_flattened_json user_info_list = Ok rows ->
     length rows =
       list_sum (map (fun page => length (interactions_of page)) user_info_list) /\
     exists rows_per_page,
       Forall2 rows_of_page user_info_list rows_per_page /\
       rows = concat rows_per_page).
Proof.
  unfold format_user_info_to_flattened_json. split.
  - rewrite rows_of_pages_all. split.
    + intros [rows H]. apply flatten_pages_ok in H as (rpp & HF & _).
      exists rpp. exact HF.
    + intros [rpp HF]. exists (concat rpp). apply flatten_pages_ok.
      exists rpp. split; [exact HF|reflexivity].
  - intros rows H. apply flatten_pages_ok in H as (rpp & HF & ->). simpl.
    split; [apply rows_of_pages_length, HF|].
    exists rpp. split; [exact HF|reflexivity].
Qed.

Lemma format_user_info_row_count_witness :
  exists rows,
    format_user_info_to_flattened_json sample_pages = Ok rows /\
    length rows = 3.
Proof.
  destruct (proj2 (proj1 (format_user_info_row_count sample_pages)) eq_refl)
    as [rows Hrows].
  exists rows. split; [exact Hrows|].
  exact (proj1 (proj2 (format_user_info_row_count sample_pages) rows Hrows)).
Defined.

(** The rows of the sample pages: the fallback row of the first page, then
    the two rows of the second page. *)
Example format_user_info_sample_rows :
  format_user_info_to_flattened_json sample_pages =
    Ok [VDict
          [("Website URL", VStr "https://quora.com/topic/AI-video-editing");
           ("Username", VStr "User from AI-video-editin");
           ("Bio", VStr "Bio not available - extraction failed");
           ("Post Type", VStr "question");
           ("Timestamp", VStr "2024-01-01");
           ("Upvotes", VInt 0);
           ("Links", VStr "")];
        VDict
          [("Website URL", VStr "https://quora.com/What-is-the-best-AI-video-editor");
           ("Username", VStr "alice");
           ("Bio", VStr "Freelance video editor");
           ("Post Type", VStr "answer");
           ("Timestamp", VStr "2023-05-01");
           ("Upvotes", VInt 12);
           ("Links", VStr "https://example.com/a, https://example.com/b")];
        VDict
          [("Website URL", VStr "https://quora.com/What-is-the-best-AI-video-editor");
           ("Username", VStr "bob");
           ("Bio", VStr "");
           ("Post Type", VStr "question");
           ("Timestamp", VStr "");
           ("Upvotes", VInt 0);
           ("Links", VStr "")]].
Proof. reflexivity. Qed.

Lemma all_str_map (l : list string) : all_str (map VStr l) = Ok l.
Proof.
  induction l as [|s l IH]; simpl; [reflexivity|]. rewrite IH. reflexivity.
Qed.

Lemma join_str_list (sep : string) (l : list string) :
  join sep (VList (map VStr l)) = Ok (String.concat sep l).
Proof. unfold join. simpl. rewrite all_str_map. reflexivity. Qed.

(** C7 (as amended): for every interaction mapping that can be flattened
    (its links, when present, are joinable), the row has the seven columns
    in order; each copied column carries the field's value unchanged when
    the field is present, and its default when it is absent ("" for the
    string fields, 0 for upvotes); Links is the comma-and-space join of the
    links, "" for an absent or empty sequence.  A cell is None only where
    the field is present in the mapping with the value None: an absent
    field never yields None. *)
Theorem flattened_interaction_cells (website_url : pyval) (d : pydict) :
  flattenable (VDict d) = true ->
  exists row,
    flattened_interaction website_url (VDict d) = Ok (VDict row) /\
    map fst row =
      ["Website URL"; "Username"; "Bio"; "Post Type"; "Timestamp"; "Upvotes"; "Links"] /\
    dict_get row "Website URL" = Some website_url /\
    (forall column key default,
       In (column, (key, default)) copied_columns ->
       (forall v, dict_get d key = Some v -> dict_get row column = Some v) /\
       (dict_get d key = None -> dict_get row column = Some default)) /\
    (forall links : list string,
       dict_get d "links" = Some (VList (map VStr links)) ->
       dict_get row "Links" = Some (VStr (String.concat ", " links))) /\
    (dict_get d "links" = None \/ dict_get d "links" = Some (VList []) ->
     dict_get row "Links" = Some (VStr "")) /\
    (forall column,
       dict_get row column = Some VNone ->
       (column = "Website URL" /\ website_url = VNone) \/
       exists key default,
         In (column, (key, default)) copied_columns /\ dict_get d key = Some VNone).
Proof.
  intros Hfl. rewrite flattened_interaction_dict.
  unfold flattenable in Hfl. fold (field_or d "links" (VList [])) in Hfl.
  destruct (join ", " (field_or d "links" (VList []))) as [joined|e] eqn:Hjoin;
    [clear Hfl|discriminate].
  simpl. eexists. split; [reflexivity|]. split; [reflexivity|]. split; [reflexivity|].
  split; [|split; [|split]].
  - intros column key default Hin. simpl in Hin.
    repeat (destruct Hin as [Heq|Hin]; [injection Heq as <- <- <-|]); try contradiction;
      (split; [intros v Hv|intros Hv]); simpl; unfold field_or; rewrite Hv; reflexivity.
  - intros links Hl. unfold field_or in Hjoin. rewrite Hl, join_str_list in Hjoin.
    injection Hjoin as <-. reflexivity.
  - intros [Hl|Hl]; unfold field_or in Hjoin; rewrite Hl in Hjoin;
      injection Hjoin as <-; reflexivity.
  - intros column. cbn [dict_get]. unfold field_or.
    destruct (String.eqb_spec "Website URL" column) as [<-|_];
      [intros Hcol; left; split; [reflexivity|congruence]|].
    destruct (String.eqb_spec "Username" column) as [<-|_];
      [intros Hcol; right; exists "username", (VStr ""); split; [simpl; auto 8|];
       destruct (dict_get d "username"); congruence|].
    destruct (String.eqb_spec "Bio" column) as [<-|_];
      [intros Hcol; right; exists "bio", (VStr ""); split; [simpl; auto 8|];
       destruct (dict_get d "bio"); congruence|].
    destruct (String.eqb_spec "Post Type" column) as [<-|_];
      [intros Hcol; right; exists "post_type", (VStr ""); split; [simpl; auto 8|];
       destruct (dict_get d "post_type"); congruence|].
    destruct (String.eqb_spec "Timestamp" column) as [<-|_];
      [intros Hcol; right; exists "timestamp", (VStr ""); split; [simpl; auto 8|];
       destruct (dict_get d "timestamp"); congruence|].
    destruct (String.eqb_spec "Upvotes" column) as [<-|_];
      [intros Hcol; right; exists "upvotes", (VInt 0); split; [simpl; auto 8|];
       destruct (dict_get d "upvotes"); congruence|].
    destruct (String.eqb_spec "Links" column) as [<-|_]; intros Hcol; discriminate Hcol.
Qed.

Lemma flattened_interaction_cells_witness :
  exists row,
    flattened_interaction (VStr "https://quora.com/What-is-the-best-AI-video-editor")
      (VDict [("username", VStr "bob"); ("post_type", VStr "question")]) = Ok (VDict row) /\
    dict_get row "Username" = Some (VStr "bob") /\
    dict_get row "Upvotes" = Some (VInt 0) /\
    dict_get row "Links" = Some (VStr "").
Proof.
  destruct (flattened_interaction_cells
              (VStr "https://quora.com/What-is-the-best-AI-video-editor")
              [("username", VStr "bob"); ("post_type", VStr "question")] eq_refl)
    as (row & Hrow & _ & _ & Hcopied & _ & Hlinks & _).
  exists row. split; [exact Hrow|]. split; [|split].
  - exact (proj1 (Hcopied "Username" "username" (VStr "") (or_introl eq_refl))
             (VStr "bob") eq_refl).
  - refine (proj2 (Hcopied "Upvotes" "upvotes" (VInt 0) _) eq_refl).
    simpl. auto 8.
  - exact (Hlinks (or_introl eq_refl)).
Defined.

(** C7 as the claim words it fails: a field present with the value None is
    copied like any other value, so None reaches the cell; and a mapping
    whose links are None gets no row at all, since [join] raises. *)
Example flattened_interaction_copies_null :
  flattened_interaction (VStr "https://quora.com/What-is-the-best-AI-video-editor")
    (VDict null_bio_interaction) =
    Ok (VDict
          [("Website URL", VStr "https://quora.com/What-is-the-best-AI-video-editor");
           ("Username", VStr "carol");
           ("Bio", VNone);
           ("Post Type", VStr "question");
           ("Timestamp", VStr "");
           ("Upvotes", VInt 0);
           ("Links", VStr "")]) /\
  flattened_interaction (VStr "https://quora.com/What-is-the-best-AI-video-editor")
    (VDict null_links_interaction) = Raise TypeError.
Proof. split; reflexivity. Qed.

(** * Further properties of the code *)

(** ** The fallback username *)

Lemma length_append (a b : string) :
  String.length (a ++ b) = String.length a + String.length b.
Proof. induction a as [|c a IH]; simpl; [reflexivity|]. rewrite IH. reflexivity. Qed.

Lemma contains_append (c : ascii) (a b : string) :
  contains c (a ++ b) = contains c a || contains c b.
Proof.
  induction a as [|x a IH]; simpl; [reflexivity|]. rewrite IH, orb_assoc. reflexivity.
Qed.

(** X1: the username [create_fallback_data] builds is "User from " followed
    by at most 15 characters, none of them a '/': it has between 10 and 25
    characters, whatever the URL. *)
Theorem fallback_username_bounds (url : string) :
  exists tail,
    create_fallback_data (VStr url) =
      Ok (VList [fallback_record ("User from " ++ tail)]) /\
    String.length tail <= 15 /\
    contains "/"%char tail = false /\
    10 <= String.length ("User from " ++ tail) <= 25.
Proof.
  exists (slice_to 15 (trailing_segment url)).
  destruct (slice_to_prefix 15 (trailing_segment url)) as (rest & Heq & Hlen).
  destruct (trailing_segment_spec url) as [_ Hfree].
  assert (Hcut : contains "/"%char (slice_to 15 (trailing_segment url)) = false).
  { rewrite Heq, contains_append in Hfree. apply orb_false_iff in Hfree. apply Hfree. }
  split; [reflexivity|]. split; [lia|]. split; [exact Hcut|].
  rewrite length_append. simpl. lia.
Qed.

(** ** The extractor, position by position *)

Section ExactPages.

Variable page_schema : pyval.
Variable app : firecrawl_app.

Lemma fallback_page_not_str (url : pyval) :
  is_str url = false -> fallback_page url = Raise AttributeError.
Proof. destruct url; try reflexivity. discriminate. Qed.

Lemma fallback_page_raises_attribute_error (url : pyval) (e : pyexn) :
  fallback_page url = Raise e -> e = AttributeError.
Proof.
  destruct url; simpl; intros H; try discriminate; injection H as <-; reflexivity.
Qed.

(** A URL that is not a string and needs the fallback stops the loop, at its
    own position or before. *)
Lemma extract_loop_stops (urls : list pyval) :
  forall calls user_info_list i url,
    nth_error urls i = Some url -> is_str url = false ->
    recovered_interactions (app (calls + i) (extract_call_for page_schema url)) = None ->
    exists out,
      extract_loop page_schema app calls urls user_info_list = (out, Some AttributeError).
Proof.
  induction urls as [|head urls IH]; intros calls acc i url Hi Hs Hr.
  - destruct i; discriminate.
  - simpl. rewrite guarded_extract_one_cases. destruct i as [|i]; simpl in Hi.
    + injection Hi as ->. rewrite Nat.add_0_r in Hr. rewrite Hr.
      rewrite (fallback_page_not_str url Hs). eexists. reflexivity.
    + assert (Hrest : forall acc', exists out,
                 extract_loop page_schema app (S calls) urls acc' =
                   (out, Some AttributeError)).
      { intros acc'. apply (IH (S calls) acc' i url Hi Hs).
        replace (S calls + i) with (calls + S i) by lia. exact Hr. }
      destruct (recovered_interactions (app calls (extract_call_for page_schema head)))
        as [v|]; [apply Hrest|].
      destruct (fallback_page head) as [page|e] eqn:Hf; [apply Hrest|].
      apply fallback_page_raises_attribute_error in Hf. subst e. eexists. reflexivity.
Qed.

End ExactPages.

Lemma fallback_all_not_str (urls : list pyval) :
  (exists url, In url urls /\ is_str url = false) ->
  forall user_info_list, fallback_all urls user_info_list = Raise AttributeError.
Proof.
  induction urls as [|head urls IH]; intros (u & Hin & Hs) acc; simpl; [contradiction|].
  destruct (fallback_page head) as [page|e] eqn:Hf; simpl.
  - apply IH. destruct Hin as [->|Hin]; [|exists u; split; assumption].
    rewrite (fallback_page_not_str u Hs) in Hf. discriminate.
  - apply fallback_page_raises_attribute_error in Hf. subst e. reflexivity.
Qed.

(** X2: whatever values the URL list holds, a list returned by
    [extract_user_info_from_urls] has exactly one page per URL, in order,
    each carrying its URL and truthy interactions.  The outer handler, which
    appends a fallback for every URL to the pages already collected, never
    completes after the loop was left by an exception, so no URL ever gets
    two pages. *)
Theorem extract_user_info_any_urls
  (FirecrawlApp : string -> result firecrawl_app) (page_schema : pyval)
  (urls : list pyval) (firecrawl_api_key : string) (pages : list pyval) :
  extract_user_info_from_urls FirecrawlApp page_schema urls firecrawl_api_key = Ok pages ->
  length pages = length urls /\
  Forall2 (fun url page =>
             exists interactions,
               page = page_result url interactions /\ truthy interactions = true)
          urls pages /\
  exists app,
    FirecrawlApp firecrawl_api_key = Ok app /\
    extract_loop page_schema app 0 urls [] = (pages, None).
Proof.
  intros H. pose proof (extract_user_info_returned_pages _ _ _ _ _ H) as HF.
  split; [symmetry; apply (Forall2_length HF)|]. split; [exact HF|].
  unfold extract_user_info_from_urls in H.
  destruct (FirecrawlApp firecrawl_api_key) as [app|e]; [simpl in H|discriminate].
  exists app. split; [reflexivity|].
  destruct (extract_loop page_schema app 0 urls []) as [out [e|]] eqn:Hloop.
  - apply extract_loop_outcome in Hloop.
    destruct (fallback_all_raises urls Hloop out) as [e' He']. congruence.
  - injection H as ->. reflexivity.
Qed.

Lemma extract_user_info_any_urls_witness :
  length
    [page_result VNone sample_interactions;
     page_result (VStr "https://quora.com/topic/AI-video-editing") sample_interactions] =
  length [VNone; VStr "https://quora.com/topic/AI-video-editing"].
Proof.
  exact (proj1 (extract_user_info_any_urls
                  (fun _ => Ok (fun _ _ => Ok sample_response)) VNone
                  [VNone; VStr "https://quora.com/topic/AI-video-editing"] "fc-key"
                  [page_result VNone sample_interactions;
                   page_result (VStr "https://quora.com/topic/AI-video-editing")
                     sample_interactions]
                  eq_refl)).
Defined.

(** X3: failure isolation stops at URLs that are not strings.  If some URL of
    the list is not a string (a null "url" entry of the search answer, say)
    and its [extract] call yields no interactions, the fallback cannot be
    built in the inner handler nor in the outer one, and the whole call
    raises AttributeError: no page is returned for any URL. *)
Theorem extract_user_info_non_string_url
  (FirecrawlApp : string -> result firecrawl_app) (page_schema : pyval)
  (firecrawl_api_key : string) (app : firecrawl_app) (urls : list pyval)
  (i : nat) (url : pyval) :
  FirecrawlApp firecrawl_api_key = Ok app ->
  nth_error urls i = Some url -> is_str url = false ->
  recovered_interactions (app i (extract_call_for page_schema url)) = None ->
  extract_user_info_from_urls FirecrawlApp page_schema urls firecrawl_api_key =
    Raise AttributeError.
Proof.
  intros Hc Hi Hs Hr. unfold extract_user_info_from_urls. rewrite Hc. simpl.
  destruct (extract_loop_stops page_schema app urls 0 [] i url Hi Hs Hr) as [out ->].
  apply fallback_all_not_str. exists url. split; [|exact Hs].
  apply (nth_error_In urls i Hi).
Qed.

Lemma extract_user_info_non_string_url_witness :
  extract_user_info_from_urls (fun _ => Ok sample_app) VNone
    [VNone; VStr "https://quora.com/topic/AI-video-editing"] "fc-key" =
  Raise AttributeError.
Proof.
  exact (extract_user_info_non_string_url
           (fun _ => Ok sample_app) VNone "fc-key" sample_app
           [VNone; VStr "https://quora.com/topic/AI-video-editing"] 0 VNone
           eq_refl eq_refl eq_refl eq_refl).
Defined.

(** X4: for string URLs and a constructed client the result is fixed
    position by position: the page of the i-th URL carries the
    "interactions" entry of the payload recovered from the i-th call when
    that entry is there and truthy, and the fallback record in every other
    case (the call raised, the conversion raised, the payload is empty or
    has no such entry, or the entry is falsy). *)
Theorem extract_user_info_exact
  (FirecrawlApp : string -> result firecrawl_app) (page_schema : pyval)
  (firecrawl_api_key : string) (app : firecrawl_app) (urls : list string) :
  FirecrawlApp firecrawl_api_key = Ok app ->
  extract_user_info_from_urls FirecrawlApp page_schema (map VStr urls) firecrawl_api_key =
    Ok (expected_pages app page_schema 0 urls).
Proof.
  intros H. unfold extract_user_info_from_urls. rewrite H. simpl.
  rewrite extract_loop_exact. reflexivity.
Qed.

Lemma extract_user_info_exact_witness :
  extract_user_info_from_urls (fun _ => Ok sample_app) VNone
    (map VStr ["https://quora.com/topic/AI-video-editing";
               "https://quora.com/What-is-the-best-AI-video-editor"]) "fc-key" =
  Ok (expected_pages sample_app VNone 0
        ["https://quora.com/topic/AI-video-editing";
         "https://quora.com/What-is-the-best-AI-video-editor"]).
Proof.
  exact (extract_user_info_exact (fun _ => Ok sample_app) VNone "fc-key" sample_app
           ["https://quora.com/topic/AI-video-editing";
            "https://quora.com/What-is-the-best-AI-video-editor"] eq_refl).
Defined.

(** ** The normalizer, page by page *)

Lemma flatten_interactions_acc (website_url : pyval) (interactions : list pyval) :
  forall flattened_data,
    flatten_interactions website_url interactions flattened_data =
      rows <- flatten_interactions website_url interactions [] ;;
      Ok (flattened_data ++ rows)%list.
Proof.
  induction interactions as [|it rest IH]; intros acc; simpl.
  - rewrite app_nil_r. reflexivity.
  - destruct (flattened_interaction website_url it) as [row|e]; simpl; [|reflexivity].
    rewrite (IH (acc ++ [row])%list), (IH [row]).
    destruct (flatten_interactions website_url rest []) as [rows|e]; simpl; [|reflexivity].
    rewrite <- app_assoc. reflexivity.
Qed.

(** The rows already collected do not influence the rows added. *)
Lemma flatten_pages_acc (pages : list pyval) :
  forall flattened_data,
    flatten_pages pages flattened_data =
      rows <- flatten_pages pages [] ;; Ok (flattened_data ++ rows)%list.
Proof.
  induction pages as [|page rest IH]; intros acc; simpl.
  - rewrite app_nil_r. reflexivity.
  - destruct (getitem page "website_url") as [url|e]; simpl; [|reflexivity].
    destruct (getitem page "user_info") as [ui|e]; simpl; [|reflexivity].
    destruct (iter ui) as [items|e]; simpl; [|reflexivity].
    rewrite (flatten_interactions_acc url items acc).
    destruct (flatten_interactions url items []) as [rows|e]; simpl; [|reflexivity].
    rewrite (IH (acc ++ rows)%list), (IH rows).
    destruct (flatten_pages rest []) as [rows'|e]; simpl; [|reflexivity].
    rewrite <- app_assoc. reflexivity.
Qed.

Lemma flatten_pages_app (pages1 pages2 : list pyval) :
  forall flattened_data,
    flatten_pages (pages1 ++ pages2)%list flattened_data =
      flattened_data' <- flatten_pages pages1 flattened_data ;;
      flatten_pages pages2 flattened_data'.
Proof.
  induction pages1 as [|page rest IH]; intros acc; simpl; [reflexivity|].
  destruct (getitem page "website_url") as [url|e]; simpl; [|reflexivity].
  destruct (getitem page "user_info") as [ui|e]; simpl; [|reflexivity].
  destruct (iter ui) as [items|e]; simpl; [|reflexivity].
  destruct (flatten_interactions url items acc) as [acc'|e]; simpl; [|reflexivity].
  apply IH.
Qed.

(** X5: the normalizer treats pages independently: flattening two lists of
    pages one after the other and joining the rows is the same as flattening
    their concatenation, with the same rows in the same order and, when a
    page cannot be flattened, the same exception. *)
Theorem format_user_info_app (pages1 pages2 : list pyval) :
  format_user_info_to_flattened_json (pages1 ++ pages2)%list =
    rows1 <- format_user_info_to_flattened_json pages1 ;;
    rows2 <- format_user_info_to_flattened_json pages2 ;;
    Ok (rows1 ++ rows2)%list.
Proof.
  unfold format_user_info_to_flattened_json. rewrite flatten_pages_app.
  destruct (flatten_pages pages1 []) as [rows1|e]; simpl; [|reflexivity].
  apply flatten_pages_acc.
Qed.

Lemma expected_pages_all_fallback (app : firecrawl_app) (page_schema : pyval)
  (urls : list string) :
  (forall i call, recovered_interactions (app i call) = None) ->
  forall i,
    expected_pages app page_schema i urls =
      map (fun url => page_result (VStr url) (VList [fallback_record (fallback_username url)]))
          urls.
Proof.
  intros Hdown. induction urls as [|url urls IH]; intros i; simpl; [reflexivity|].
  unfold expected_page. rewrite Hdown, IH. reflexivity.
Qed.

Lemma flatten_fallback_pages (urls : list string) :
  flatten_pages
    (map (fun url => page_result (VStr url) (VList [fallback_record (fallback_username url)]))
         urls) [] =
  Ok (map fallback_row urls).
Proof.
  induction urls as [|url urls IH]; [reflexivity|].
  cbn [map flatten_pages]. simpl getitem. cbn [bind iter].
  change (flatten_interactions (VStr url) [fallback_record (fallback_username url)] [])
    with (Ok [fallback_row url] : result (list pyval)).
  cbn [bind]. rewrite flatten_pages_acc, IH. reflexivity.
Qed.

(** X6: when no [extract] call yields interactions (the service is down, or
    finds nothing), the run of the extractor followed by the normalizer
    returns exactly one row per URL, in order: the URL, the username derived
    from it, the sentinel bio, "question", the placeholder date, 0 upvotes
    and an empty Links cell. *)
Theorem pipeline_all_fallback
  (FirecrawlApp : string -> result firecrawl_app) (page_schema : pyval)
  (firecrawl_api_key : string) (app : firecrawl_app) (urls : list string) :
  FirecrawlApp firecrawl_api_key = Ok app ->
  (forall i call, recovered_interactions (app i call) = None) ->
  (user_info_list <-
     extract_user_info_from_urls FirecrawlApp page_schema (map VStr urls)
       firecrawl_api_key ;;
   format_user_info_to_flattened_json user_info_list) =
  Ok (map fallback_row urls).
Proof.
  intros Hc Hdown. unfold extract_user_info_from_urls. rewrite Hc. simpl.
  rewrite extract_loop_exact. simpl.
  rewrite (expected_pages_all_fallback app page_schema urls Hdown).
  apply flatten_fallback_pages.
Qed.

Lemma pipeline_all_fallback_witness :
  (user_info_list <-
     extract_user_info_from_urls (fun _ => Ok unreachable_app) VNone
       (map VStr ["https://quora.com/topic/AI-video-editing"; "https://quora.com/"])
       "fc-key" ;;
   format_user_info_to_flattened_json user_info_list) =
  Ok (map fallback_row ["https://quora.com/topic/AI-video-editing"; "https://quora.com/"]).
Proof.
  exact (pipeline_all_fallback (fun _ => Ok unreachable_app) VNone "fc-key"
           unreachable_app ["https://quora.com/topic/AI-video-editing"; "https://quora.com/"]
           eq_refl (fun _ _ => eq_refl)).
Defined.

Lemma all_str_chars (s : string) : all_str (chars s) = Ok (letters s).
Proof. induction s as [|c s IH]; simpl; [reflexivity|]. rewrite IH. reflexivity. Qed.

Lemma all_str_keys (d : pydict) :
  all_str (map (fun kv => VStr (fst kv)) d) = Ok (map fst d).
Proof. induction d as [|[k v] d IH]; simpl; [reflexivity|]. rewrite IH. reflexivity. Qed.

(** X7: the Links cell is built by joining whatever iterating the "links"
    value yields.  A links value that is one string is therefore split into
    its characters, joined by ", "; a mapping gives its keys; a value that
    cannot be iterated (None, a number, a boolean) makes the row raise
    TypeError. *)
Theorem flattened_interaction_links_not_a_list (website_url : pyval) (d : pydict) :
  (forall s, dict_get d "links" = Some (VStr s) ->
     exists row,
       flattened_interaction website_url (VDict d) = Ok (VDict row) /\
       dict_get row "Links" = Some (VStr (String.concat ", " (letters s)))) /\
  (forall keys, dict_get d "links" = Some (VDict keys) ->
     exists row,
       flattened_interaction website_url (VDict d) = Ok (VDict row) /\
       dict_get row "Links" = Some (VStr (String.concat ", " (map fst keys)))) /\
  (forall v, dict_get d "links" = Some v -> iter v = Raise TypeError ->
     flattened_interaction website_url (VDict d) = Raise TypeError).
Proof.
  rewrite flattened_interaction_dict. unfold field_or, join. split; [|split].
  - intros s ->. simpl. rewrite all_str_chars. simpl. eexists. split; reflexivity.
  - intros keys ->. simpl. rewrite all_str_keys. simpl. eexists. split; reflexivity.
  - intros v -> ->. reflexivity.
Qed.

Lemma flattened_interaction_links_not_a_list_witness :
  exists row,
    flattened_interaction (VStr "https://quora.com/topic/AI-video-editing")
      (VDict string_links_interaction) = Ok (VDict row) /\
    dict_get row "Links" = Some (VStr "a, ., i, o").
Proof.
  exact (proj1 (flattened_interaction_links_not_a_list
                  (VStr "https://quora.com/topic/AI-video-editing")
                  string_links_interaction) "a.io" eq_refl).
Defined.

(** ** Failures of the search *)

Lemma url_fields_stops (good urls : list pyval) (bad : pyval) (rest : list pyval)
  (e : pyexn) :
  Forall2 has_url good urls -> getitem bad "url" = Raise e ->
  url_fields (good ++ bad :: rest)%list = Raise e.
Proof.
  intros Hgood Hbad.
  induction Hgood as [|item u good urls (fields & -> & Hu) _ IH]; simpl.
  - rewrite Hbad. reflexivity.
  - rewrite Hu. simpl. rewrite IH. reflexivity.
Qed.

(** X8: [search_for_urls] handles no exception.  A failure of the request
    itself is passed on; on a 200 answer, a body that is not JSON raises
    JSONDecodeError, a JSON body that is not an object raises AttributeError,
    a truthy "success" with a "data" value that cannot be iterated raises
    TypeError, and one result item without "url" makes the whole call raise
    (KeyError for an object, TypeError for anything else), the URLs of the
    items before it included. *)
Theorem search_for_urls_failures
  (post : search_request -> result http_response)
  (company_description firecrawl_api_key : string) (num_links : Z) :
  (forall e,
     post (search_request_for company_description firecrawl_api_key num_links) = Raise e ->
     search_for_urls post company_description firecrawl_api_key num_links = Raise e) /\
  (forall answer,
     post (search_request_for company_description firecrawl_api_key num_links) = Ok answer ->
     status_code answer = 200%Z ->
     (json_body answer = None ->
      search_for_urls post company_description firecrawl_api_key num_links =
        Raise JSONDecodeError) /\
     (forall body, json_body answer = Some body -> mapping_of body = None ->
      search_for_urls post company_description firecrawl_api_key num_links =
        Raise AttributeError) /\
     (forall d v, json_body answer = Some (VDict d) -> success_flag d = true ->
        dict_get d "data" = Some v -> iter v = Raise TypeError ->
        search_for_urls post company_description firecrawl_api_key num_links =
          Raise TypeError) /\
     (forall d good urls bad rest,
        json_body answer = Some (VDict d) -> success_flag d = true ->
        dict_get d "data" = Some (VList (good ++ bad :: rest)%list) ->
        Forall2 has_url good urls ->
        (forall u, ~ has_url bad u) ->
        search_for_urls post company_description firecrawl_api_key num_links =
          Raise (match bad with VDict _ => KeyError "url" | _ => TypeError end))).
Proof.
  split.
  - intros e H. unfold search_for_urls. rewrite H. reflexivity.
  - intros answer Hpost Hs. split; [|split; [|split]].
    + intros Hb. unfold search_for_urls, response_json. rewrite Hpost. simpl.
      rewrite Hs, Hb. reflexivity.
    + intros body Hb Hm. unfold search_for_urls, response_json. rewrite Hpost. simpl.
      rewrite Hs, Hb. simpl. destruct body; try reflexivity. discriminate.
    + intros d v Hb Hf Hd Hi.
      rewrite (search_200_object post _ _ _ answer Hpost d Hs Hb), Hf, Hd, Hi. reflexivity.
    + intros d good urls bad rest Hb Hf Hd Hgood Hbad.
      rewrite (search_200_object post _ _ _ answer Hpost d Hs Hb), Hf, Hd. simpl.
      apply (url_fields_stops good urls bad rest _ Hgood).
      destruct bad as [| | | | | |fields]; try reflexivity. simpl.
      destruct (dict_get fields "url") as [u|] eqn:Hu; [|reflexivity].
      exfalso. apply (Hbad u). exists fields. split; [reflexivity|exact Hu].
Qed.

Lemma search_for_urls_failures_witness :
  search_for_urls (fun _ => Ok missing_url_response)
    "AI video editing software" "fc-key" 4 = Raise (KeyError "url").
Proof.
  refine (proj2 (proj2 (proj2
            (proj2 (search_for_urls_failures
                      (fun _ => Ok missing_url_response)
                      "AI video editing software" "fc-key" 4)
               missing_url_response eq_refl eq_refl)))
            [("success", VBool true);
             ("data", VList (sample_results ++ VDict [("title", VStr "untitled")]
                               :: sample_results)%list)]
            sample_results sample_urls (VDict [("title", VStr "untitled")]) sample_results
            eq_refl eq_refl eq_refl sample_results_urls _).
  intros u (fields & Heq & Hurl). injection Heq as <-. discriminate Hurl.
Defined.

(** ** The run *)

Lemma truthy_str_empty (s : string) : truthy (VStr s) = false <-> s = "".
Proof.
  simpl. destruct s; simpl; split; intros H; try reflexivity; discriminate.
Qed.

(** Iterating a truthy value that can be iterated visits at least one
    item. *)
Lemma truthy_iter_not_nil (v : pyval) (items : list pyval) :
  truthy v = true -> iter v = Ok items -> items <> [].
Proof.
  destruct v as [| | | |s|l|d]; simpl; intros Ht Hi; try discriminate;
    injection Hi as <-.
  - destruct s; [discriminate|simpl; discriminate].
  - destruct l; [discriminate|discriminate].
  - destruct d; [discriminate|simpl; discriminate].
Qed.

Lemma row_of_website_url (website_url interaction row : pyval) :
  row_of website_url interaction row -> getitem row "Website URL" = Ok website_url.
Proof.
  unfold row_of. destruct interaction as [| | | | | |d]; try discriminate.
  rewrite flattened_interaction_dict.
  destruct (join ", " _) as [joined|e]; simpl; [|discriminate].
  intros H. injection H as <-. reflexivity.
Qed.

Lemma rows_of_page_result (url user_info : pyval) (rows : list pyval) :
  truthy user_info = true ->
  rows_of_page (page_result url user_info) rows ->
  rows <> [] /\ Forall (fun row => getitem row "Website URL" = Ok url) rows.
Proof.
  intros Ht (w & ui & Hw & Hui & Hit & HF). simpl in Hw, Hui.
  injection Hw as <-. injection Hui as <-.
  pose proof (truthy_iter_not_nil _ _ Ht Hit) as Hne.
  split.
  - intros ->. inversion HF as [Hnil|]. apply Hne. symmetry. exact Hnil.
  - clear Hne Hit. induction HF as [|it row its rows Hrow _ IH]; constructor.
    + apply (row_of_website_url _ _ _ Hrow).
    + exact IH.
Qed.

Lemma pages_rows (urls pages : list pyval) (rows_per_page : list (list pyval)) :
  Forall2 (fun url page =>
             exists interactions,
               page = page_result url interactions /\ truthy interactions = true)
          urls pages ->
  Forall2 rows_of_page pages rows_per_page ->
  Forall2 (fun url rows =>
             rows <> [] /\ Forall (fun row => getitem row "Website URL" = Ok url) rows)
          urls rows_per_page.
Proof.
  intros H. revert rows_per_page.
  induction H as [|url page urls pages (ui & -> & Ht) _ IH]; intros rpp HF;
    inversion HF as [|? rows ? rpp' Hrows HF']; subst; constructor.
  - apply (rows_of_page_result url ui rows Ht Hrows).
  - apply IH, HF'.
Qed.

Lemma concat_rows (urls : list pyval) (rows_per_page : list (list pyval)) :
  Forall2 (fun url rows =>
             rows <> [] /\ Forall (fun row => getitem row "Website URL" = Ok url) rows)
          urls rows_per_page ->
  length urls <= length (concat rows_per_page) /\
  (forall row, In row (concat rows_per_page) ->
     exists url, In url urls /\ getitem row "Website URL" = Ok url) /\
  (forall url, In url urls ->
     exists row, In row (concat rows_per_page) /\ getitem row "Website URL" = Ok url).
Proof.
  induction 1 as [|url rows urls rpp [Hne Hall] _ (IHlen & IHrow & IHurl)]; simpl.
  - split; [lia|]. split; intros ? [].
  - split; [|split].
    + rewrite length_app. destruct rows; [contradiction|simpl; lia].
    + intros row Hin. apply in_app_or in Hin as [Hin|Hin].
      * exists url. split; [left; reflexivity|].
        rewrite Forall_forall in Hall. apply Hall, Hin.
      * destruct (IHrow row Hin) as (u & Hu & Hg). exists u.
        split; [right; assumption|assumption].
    + intros u [<-|Hin].
      * destruct rows as [|row rows]; [contradiction|]. exists row.
        split; [left; reflexivity|]. inversion Hall; assumption.
      * destruct (IHurl u Hin) as (row & Hr & Hg). exists row.
        split; [apply in_or_app; right; assumption|assumption].
Qed.

Section RunOutcome.

Variable Agent : agent_config -> result agent.
Variable post : search_request -> result http_response.
Variable FirecrawlApp : string -> result firecrawl_app.
Variable page_schema : pyval.
Variables (firecrawl_api_key ollama_model : string) (num_links : Z) (user_query : string).

Lemma generate_leads_inputs_present :
  firecrawl_api_key <> "" -> user_query <> "" ->
  generate_leads Agent post FirecrawlApp page_schema
    firecrawl_api_key ollama_model num_links user_query =
  (transform_agent <- create_prompt_transformation_agent Agent ollama_model ;;
   company_description <-
     transform_agent
       ("Transform this query into a concise 3-4 word company description: "
        ++ user_query) ;;
   urls <- search_for_urls post company_description firecrawl_api_key num_links ;;
   match urls with
   | [] => Ok NoUrls
   | _ :: _ =>
       user_info_list <-
         extract_user_info_from_urls FirecrawlApp page_schema urls firecrawl_api_key ;;
       flattened_data <- format_user_info_to_flattened_json user_info_list ;;
       match flattened_data with
       | [] => Ok (NoLeadData user_info_list)
       | _ :: _ => Ok (Leads urls flattened_data)
       end
   end).
Proof.
  intros Hk Hq. unfold generate_leads.
  destruct (truthy (VStr firecrawl_api_key)) eqn:Tk;
    [|apply truthy_str_empty in Tk; contradiction].
  destruct (truthy (VStr user_query)) eqn:Tq;
    [|apply truthy_str_empty in Tq; contradiction].
  cbn [andb negb].
  destruct (create_prompt_transformation_agent Agent ollama_model) as [a|e];
    [simpl|reflexivity].
  destruct (a _) as [c|e]; [simpl|reflexivity].
  destruct (search_for_urls post c firecrawl_api_key num_links) as [[|u urls]|e];
    try reflexivity.
  cbn [bind truthy].
  destruct (extract_user_info_from_urls _ _ _ _) as [pages|e]; [simpl|reflexivity].
  destruct (format_user_info_to_flattened_json pages) as [[|row rows]|e]; reflexivity.
Qed.

Lemma generate_leads_inputs_missing :
  firecrawl_api_key = "" \/ user_query = "" ->
  generate_leads Agent post FirecrawlApp page_schema
    firecrawl_api_key ollama_model num_links user_query = Ok MissingInputs.
Proof.
  unfold generate_leads. intros [->| ->]; simpl; [reflexivity|].
  rewrite andb_false_r. reflexivity.
Qed.

End RunOutcome.

(** X9: the two gates of a run.  It ends with the request to fill in the
    inputs exactly when the API key or the query is empty, whatever the
    services would do; and when the search returns no URL it ends with
    "No relevant URLs found" without constructing the Firecrawl client, so
    even a client that cannot be constructed does not matter then. *)
Theorem generate_leads_gates
  (Agent : agent_config -> result agent)
  (post : search_request -> result http_response)
  (FirecrawlApp : string -> result firecrawl_app) (page_schema : pyval)
  (firecrawl_api_key ollama_model : string) (num_links : Z) (user_query : string) :
  (generate_leads Agent post FirecrawlApp page_schema
     firecrawl_api_key ollama_model num_links user_query = Ok MissingInputs <->
   firecrawl_api_key = "" \/ user_query = "") /\
  (forall transform_agent company_description,
     firecrawl_api_key <> "" -> user_query <> "" ->
     create_prompt_transformation_agent Agent ollama_model = Ok transform_agent ->
     transform_agent
       ("Transform this query into a concise 3-4 word company description: "
        ++ user_query) = Ok company_description ->
     search_for_urls post company_description firecrawl_api_key num_links = Ok [] ->
     generate_leads Agent post FirecrawlApp page_schema
       firecrawl_api_key ollama_model num_links user_query = Ok NoUrls).
Proof.
  split; [split|].
  - intros H.
    destruct firecrawl_api_key as [|k ks] eqn:Ek; [left; reflexivity|].
    destruct user_query as [|q qs] eqn:Eq; [right; reflexivity|].
    exfalso. rewrite generate_leads_inputs_present in H by discriminate.
    destruct (create_prompt_transformation_agent Agent ollama_model) as [a|e];
      [simpl in H|discriminate].
    destruct (a _) as [c|e]; [simpl in H|discriminate].
    destruct (search_for_urls post c _ num_links) as [[|u urls]|e];
      try discriminate.
    cbn [bind] in H.
    destruct (extract_user_info_from_urls _ _ _ _) as [pages|e];
      [simpl in H|discriminate].
    destruct (format_user_info_to_flattened_json pages) as [[|row rows]|e]; discriminate.
  - apply generate_leads_inputs_missing.
  - intros a c Hk Hq Ha Hc Hsearch.
    rewrite (generate_leads_inputs_present _ _ _ _ _ _ _ _ Hk Hq), Ha. cbn [bind].
    rewrite Hc. cbn [bind]. rewrite Hsearch. reflexivity.
Qed.

Lemma generate_leads_gates_witness :
  generate_leads sample_agent (fun _ => Ok array_body_response) rejecting_client VNone
    "" "llama3.2" 4 "Looking for users who need automated video editing software" =
    Ok MissingInputs /\
  generate_leads sample_agent
    (fun _ => Ok (json_response 200 [("success", VBool true); ("data", VList [])]))
    rejecting_client VNone
    "fc-key" "llama3.2" 4 "Looking for users who need automated video editing software" =
    Ok NoUrls.
Proof.
  split.
  - exact (proj2 (proj1 (generate_leads_gates
                           sample_agent (fun _ => Ok array_body_response) rejecting_client
                           VNone "" "llama3.2" 4
                           "Looking for users who need automated video editing software"))
             (or_introl eq_refl)).
  - refine (proj2 (generate_leads_gates
                     sample_agent
                     (fun _ => Ok (json_response 200
                                     [("success", VBool true); ("data", VList [])]))
                     rejecting_client VNone "fc-key" "llama3.2" 4
                     "Looking for users who need automated video editing software")
              (fun _ => Ok "AI video editing software") "AI video editing software"
              _ _ eq_refl eq_refl eq_refl); discriminate.
Defined.

(** X10: what a run can end with.  Whenever the run reaches the table, the
    table is not empty: every URL the search returned has at least one row,
    every row carries one of those URLs in its "Website URL" cell, and the
    branch "No lead data could be extracted" is never taken, because every
    page the extractor returns has interactions and a page that cannot be
    flattened raises instead. *)
Theorem generate_leads_result
  (Agent : agent_config -> result agent)
  (post : search_request -> result http_response)
  (FirecrawlApp : string -> result firecrawl_app) (page_schema : pyval)
  (firecrawl_api_key ollama_model : string) (num_links : Z) (user_query : string)
  (o : outcome) :
  generate_leads Agent post FirecrawlApp page_schema
    firecrawl_api_key ollama_model num_links user_query = Ok o ->
  match o with
  | MissingInputs => firecrawl_api_key = "" \/ user_query = ""
  | NoUrls =>
      exists company_description,
        search_for_urls post company_description firecrawl_api_key num_links = Ok []
  | NoLeadData _ => False
  | Leads urls flattened_data =>
      (exists company_description,
         search_for_urls post company_description firecrawl_api_key num_links = Ok urls) /\
      urls <> [] /\
      length urls <= length flattened_data /\
      (forall row, In row flattened_data ->
         exists url, In url urls /\ getitem row "Website URL" = Ok url) /\
      (forall url, In url urls ->
         exists row, In row flattened_data /\ getitem row "Website URL" = Ok url)
  end.
Proof.
  intros H.
  destruct firecrawl_api_key as [|k ks] eqn:Ek.
  { rewrite generate_leads_inputs_missing in H by (left; reflexivity).
    injection H as <-. left. reflexivity. }
  destruct user_query as [|q qs] eqn:Eq.
  { rewrite generate_leads_inputs_missing in H by (right; reflexivity).
    injection H as <-. right. reflexivity. }
  rewrite generate_leads_inputs_present in H by discriminate.
  destruct (create_prompt_transformation_agent Agent ollama_model) as [a|e];
    [simpl in H|discriminate].
  destruct (a _) as [c|e]; [simpl in H|discriminate].
  destruct (search_for_urls post c _ num_links) as [urls|e] eqn:Hsearch;
    [|discriminate].
  destruct urls as [|u urls]; [injection H as <-; exists c; exact Hsearch|].
  cbn [bind] in H.
  destruct (extract_user_info_from_urls _ _ _ _) as [pages|e] eqn:Hex;
    [simpl in H|discriminate].
  destruct (format_user_info_to_flattened_json pages) as [rows|e] eqn:Hfmt;
    [simpl in H|discriminate].
  apply extract_user_info_returned_pages in Hex.
  unfold format_user_info_to_flattened_json in Hfmt.
  apply flatten_pages_ok in Hfmt as (rpp & Hrpp & ->). simpl in H.
  pose proof (concat_rows _ _ (pages_rows _ _ _ Hex Hrpp)) as (Hlen & Hrow & Hurl).
  destruct (concat rpp) as [|row rows] eqn:Hrows.
  - simpl in Hlen. lia.
  - injection H as <-. split; [exists c; exact Hsearch|]. split; [discriminate|].
    split; [exact Hlen|]. split; assumption.
Qed.

Lemma generate_leads_result_witness :
  exists urls flattened_data,
    generate_leads sample_agent (fun _ => Ok sample_success) (fun _ => Ok sample_app) VNone
      "fc-key" "llama3.2" 4 "Looking for users who need automated video editing software" =
      Ok (Leads urls flattened_data) /\
    length urls <= length flattened_data.
Proof.
  eexists. eexists. split; [reflexivity|].
  exact (proj1 (proj2 (proj2
           (generate_leads_result
              sample_agent (fun _ => Ok sample_success) (fun _ => Ok sample_app) VNone
              "fc-key" "llama3.2" 4
              "Looking for users who need automated video editing software"
              (Leads _ _) eq_refl)))).
Defined.

(** ** The shape of the table *)

Lemma row_of_shape (website_url interaction row : pyval) :
  row_of website_url interaction row ->
  exists cells joined,
    row = VDict cells /\
    map fst cells =
      ["Website URL"; "Username"; "Bio"; "Post Type"; "Timestamp"; "Upvotes"; "Links"] /\
    dict_get cells "Links" = Some (VStr joined).
Proof.
  unfold row_of. destruct interaction as [| | | | | |d]; try discriminate.
  rewrite flattened_interaction_dict.
  destruct (join ", " _) as [joined|e]; simpl; [|discriminate].
  intros H. injection H as <-. eexists. exists joined. repeat split.
Qed.

(** X11: the rows the normalizer returns form a rectangular table: every
    row is a mapping with the same seven columns in the same order, and its
    Links cell is a string, whatever the pages held. *)
Theorem format_user_info_table (user_info_list rows : list pyval) :
  format_user_info_to_flattened_json user_info_list = Ok rows ->
  Forall (fun row =>
            exists cells joined,
              row = VDict cells /\
              map fst cells =
                ["Website URL"; "Username"; "Bio"; "Post Type"; "Timestamp"; "Upvotes";
                 "Links"] /\
              dict_get cells "Links" = Some (VStr joined)) rows.
Proof.
  unfold format_user_info_to_flattened_json. intros H.
  apply flatten_pages_ok in H as (rpp & HF & ->). simpl.
  induction HF as [|page page_rows pages rpp (url & ui & _ & _ & _ & Hrows) _ IH]; simpl;
    [constructor|].
  apply Forall_app. split; [|exact IH].
  clear IH. induction Hrows as [|it row its page_rows Hrow _ IHrows]; constructor.
  - apply (row_of_shape _ _ _ Hrow).
  - exact IHrows.
Qed.

Lemma format_user_info_table_witness :
  exists rows,
    format_user_info_to_flattened_json sample_pages = Ok rows /\
    Forall (fun row =>
              exists cells joined,
                row = VDict cells /\
                map fst cells =
                  ["Website URL"; "Username"; "Bio"; "Post Type"; "Timestamp"; "Upvotes";
                   "Links"] /\
                dict_get cells "Links" = Some (VStr joined)) rows.
Proof.
  eexists. split; [reflexivity|].
  exact (format_user_info_table sample_pages _ eq_refl).
Defined.
